(** * Orient-JS: the tour controller of [dist/orient.js]

    A shallow embedding of the [Orient] constructor function: its
    navigation operations ([startFlow], [nextSlide], [prevSlide],
    [jumpToSlide], [stopFlow], [setFlowURL]), the slide builder
    ([buildSlide], [createElement]) and the floating-slide positioner
    ([positionSlide], [getElAbsolutePosition],
    [removeAttachedTargetStyles]).

    Conventions of the embedding.
    - The controller object ([self]) is a record; every method is a
      computation in a state-and-exception monad over a [World] that
      holds the controller, the DOM elements (a store indexed by element
      identity, so that aliasing between [self.slideEl], the wrapper that
      contains it and [document.body] is kept), the window and a trace.
      A raised exception keeps the writes made before it.
    - JavaScript [undefined] and [null] in a slot are both [None]; the
      code only ever tests such slots for truthiness or hands them to a
      DOM call that rejects both.
    - A FlowFile is typed as its syntax reference types it: strings,
      booleans, optional fields. Slide numbers and indices are integers.
    - Pixel quantities are exact rationals ([Q]); an inline length
      [n + "px"] is kept as [Px n].
    - An element has a layout box in document coordinates;
      [getBoundingClientRect] is that box seen from the scroll position.
      [window.scrollTo] is recorded in the trace with the offsets the
      code asks for; where the page then is, is the browser's answer to
      the request (it clamps to the scrollable range and may snap to
      whole pixels), which the window carries.
    - [new Function(text)()] hands [text] to the host's script engine:
      the call is recorded in the trace as [CallFunction text], and it
      raises what the script raises (a text that does not parse raises
      from the constructor); the world carries, for every text, whether
      it returns or what it raises. An [onShow] text is left in its
      script element. What else a script does is outside the embedding.
    - [console.error] and [console.log] are recorded in the trace with
      the text they show: several string arguments are shown with a
      blank between them. The exception object that [flowLoaded] hands
      to [console.error] after its text is not part of the record.
    - [document.querySelector] is the page's: the world carries the
      page's answer to every string (no selector at all, an element, or
      nothing), and an element is found only if it exists in the store.
    - As the README instructs, the controller is bound to the global
      name [orient], which [buildSlide] reads for the button handlers. *)

From Stdlib Require Import String Ascii List ZArith QArith Qminmax Qround Lia Bool DecimalString.
From stdpp Require Import base option list gmap strings.

Import ListNotations.

Local Open Scope Z_scope.

(** ** JavaScript values *)

Module JS.

(** Truthiness of a string slot that may be absent: [undefined] and the
    empty string are falsy. *)
Definition truthy_string (s : option string) : bool :=
  match s with
  | Some (String _ _) => true
  | _ => false
  end.

(** Truthiness of a slot that holds an object, [null] or [undefined]. *)
Definition truthy_ref {A} (o : option A) : bool :=
  match o with
  | Some _ => true
  | None => false
  end.

(** Truthiness of a number: [0] is falsy. *)
Definition truthy_number (q : option Q) : bool :=
  match q with
  | Some v => negb (Qeq_bool v 0)
  | None => false
  end.

(** [a || b] on string slots. *)
Definition or_string (s : option string) (d : string) : string :=
  match s with
  | Some (String c r) => String c r
  | _ => d
  end.

(** [ToNumber] of an index slot: [null] converts to [0]. *)
Definition to_number (i : option Z) : Z :=
  match i with
  | Some z => z
  | None => 0
  end.

(** [a > b] on numbers. *)
Definition Qgtb (a b : Q) : bool := negb (Qle_bool a b).
Definition Qltb (a b : Q) : bool := negb (Qle_bool b a).

(** Number to string, for the diagnostics. *)
Definition string_of_Z (z : Z) : string := NilZero.string_of_int (Z.to_int z).

(** [arr[i]]: out of range, negative or [null] index reads [undefined]. *)
Definition index {A} (arr : list A) (i : option Z) : option A :=
  match i with
  | Some z => if Z.ltb z 0 then None else arr !! Z.to_nat z
  | None => None
  end.

Inductive Exn : Type :=
| TypeError (msg : string)
| NotFoundError (msg : string)
| SyntaxError (msg : string).

End JS.

(** ** Class attributes and [classList] *)

Module ClassList.

(** ASCII whitespace, which separates the tokens of a class attribute. *)
Definition is_ws (c : ascii) : bool :=
  match nat_of_ascii c with
  | 9%nat | 10%nat | 12%nat | 13%nat | 32%nat => true
  | _ => false
  end.

Definition flush (cur : string) : list string :=
  match cur with
  | EmptyString => []
  | _ => [cur]
  end.

(** Split on whitespace; [cur] is the token being read. *)
Fixpoint split (cur : string) (s : string) : list string :=
  match s with
  | EmptyString => flush cur
  | String c r =>
      if is_ws c then flush cur ++ split EmptyString r
      else split (cur +:+ String c EmptyString) r
  end.

Definition mem (t : string) (l : list string) : bool :=
  existsb (String.eqb t) l.

(** Ordered set: keep the first occurrence of each token. *)
Fixpoint dedup (seen : list string) (l : list string) : list string :=
  match l with
  | [] => []
  | t :: r => if mem t seen then dedup seen r else t :: dedup (t :: seen) r
  end.

(** The token set of a class attribute. *)
Definition tokens (cn : string) : list string := dedup [] (split EmptyString cn).

Fixpoint serialize (l : list string) : string :=
  match l with
  | [] => EmptyString
  | [t] => t
  | t :: r => t +:+ String " "%char (serialize r)
  end.

(** [el.classList.contains(t)] *)
Definition contains (t : string) (cn : string) : bool := mem t (tokens cn).

(** [el.classList.add(t)]: the attribute becomes the serialized set. *)
Definition add (t : string) (cn : string) : string :=
  let ts := tokens cn in
  serialize (if mem t ts then ts else ts ++ [t]).

(** [el.classList.remove(t)] *)
Definition remove (t : string) (cn : string) : string :=
  serialize (List.filter (fun u => negb (String.eqb t u)) (tokens cn)).

(** A string without whitespace. *)
Fixpoint no_ws (s : string) : bool :=
  match s with
  | EmptyString => true
  | String c r => negb (is_ws c) && no_ws r
  end.

(** A class token: not empty, no whitespace. *)
Definition token (s : string) : bool :=
  match s with
  | EmptyString => false
  | _ => no_ws s
  end.

End ClassList.

(** ** The page: DOM elements, window, trace *)

Module DOM.

(** Identity of a DOM element: its slot in the element store. *)
Abbreviation ElId := nat.

(** The handlers the controller binds to its buttons and overlay. *)
Inductive Handler : Type :=
| H_stopFlow
| H_prevSlide
| H_nextSlide.

Inductive CssValue : Type :=
| Px (q : Q)
| Raw (s : string).

(** What was last assigned to [innerText] (escaped) or [innerHTML]. *)
Inductive Content : Type :=
| NoContent
| InnerText (s : string)
| InnerHTML (s : string).

(** Layout box of an element, in document coordinates. *)
Record Box : Type := mkBox {
  box_x : Q;
  box_y : Q;
  box_width : Q;
  box_height : Q
}.

Definition zero_box : Box := mkBox 0 0 0 0.

Record Element : Type := mkElement {
  tagName : string;
  className : string;
  content : Content;
  src : option string;
  muted : option bool;
  loop : option bool;
  controls : option bool;
  autoplay : option bool;
  style : gmap string CssValue;
  listeners : list (string * Handler);
  children : list ElId;
  box : Box
}.

Definition new_element (tag : string) : Element :=
  mkElement tag EmptyString NoContent None None None None None ∅ [] [] zero_box.

Definition set_className (v : string) (e : Element) : Element :=
  mkElement (tagName e) v (content e) (src e) (muted e) (loop e) (controls e)
    (autoplay e) (style e) (listeners e) (children e) (box e).

Definition set_content (v : Content) (e : Element) : Element :=
  mkElement (tagName e) (className e) v (src e) (muted e) (loop e) (controls e)
    (autoplay e) (style e) (listeners e) (children e) (box e).

Definition set_src (v : string) (e : Element) : Element :=
  mkElement (tagName e) (className e) (content e) (Some v) (muted e) (loop e)
    (controls e) (autoplay e) (style e) (listeners e) (children e) (box e).

Definition set_video_flags (m l c a : bool) (e : Element) : Element :=
  mkElement (tagName e) (className e) (content e) (src e) (Some m) (Some l)
    (Some c) (Some a) (style e) (listeners e) (children e) (box e).

Definition set_style (v : gmap string CssValue) (e : Element) : Element :=
  mkElement (tagName e) (className e) (content e) (src e) (muted e) (loop e)
    (controls e) (autoplay e) v (listeners e) (children e) (box e).

Definition set_listeners (v : list (string * Handler)) (e : Element) : Element :=
  mkElement (tagName e) (className e) (content e) (src e) (muted e) (loop e)
    (controls e) (autoplay e) (style e) v (children e) (box e).

Definition set_children (v : list ElId) (e : Element) : Element :=
  mkElement (tagName e) (className e) (content e) (src e) (muted e) (loop e)
    (controls e) (autoplay e) (style e) (listeners e) v (box e).

(** [el.style.<name> = v] *)
Definition style_assign (name : string) (v : CssValue) (e : Element) : Element :=
  set_style (<[name := v]> (style e)) e.

(** [el.removeAttribute('style')] *)
Definition remove_style (e : Element) : Element := set_style ∅ e.

Definition classList_add (t : string) (e : Element) : Element :=
  set_className (ClassList.add t (className e)) e.

Definition classList_remove (t : string) (e : Element) : Element :=
  set_className (ClassList.remove t (className e)) e.

(** [el.addEventListener(name, fn)]; a [null] callback registers nothing. *)
Definition add_listener (name : string) (fn : option Handler) (e : Element) : Element :=
  match fn with
  | Some h => set_listeners (listeners e ++ [(name, h)]) e
  | None => e
  end.

Definition append_child (c : ElId) (e : Element) : Element :=
  set_children (children e ++ [c]) e.

(** The window. Browsers without [scrollX]/[scrollY] (Internet Explorer)
    only offer [pageXOffset]/[pageYOffset]; where both exist they agree.
    [settle x y] are the offsets the browser scrolls to when it is asked
    for [(x, y)]: it clamps the request to the scrollable range of the
    document and may snap it to whole pixels. *)
Record Window : Type := mkWindow {
  innerWidth : Q;
  innerHeight : Q;
  hasScrollXY : bool;
  pageXOffset : Q;
  pageYOffset : Q;
  settle : Q -> Q -> Q * Q
}.

Definition scrollX (w : Window) : option Q :=
  if hasScrollXY w then Some (pageXOffset w) else None.

Definition scrollY (w : Window) : option Q :=
  if hasScrollXY w then Some (pageYOffset w) else None.

(** [window.scrollTo(x, y)]: the page moves to where the browser
    settles for the request. *)
Definition scroll_to (x y : Q) (w : Window) : Window :=
  mkWindow (innerWidth w) (innerHeight w) (hasScrollXY w)
    (fst (settle w x y)) (snd (settle w x y)) (settle w).

(** A [DOMRect], relative to the viewport. *)
Record Rect : Type := mkRect {
  left : Q;
  right : Q;
  top : Q;
  bottom : Q;
  height : Q;
  width : Q
}.

(** [el.getBoundingClientRect()] *)
Definition client_rect (w : Window) (e : Element) : Rect :=
  let l := (box_x (box e) - pageXOffset w)%Q in
  let t := (box_y (box e) - pageYOffset w)%Q in
  mkRect l (l + box_width (box e))%Q t (t + box_height (box e))%Q
    (box_height (box e)) (box_width (box e)).

(** What the program does to the outside, in order. *)
Inductive Event : Type :=
| ConsoleError (msg : string)
| ConsoleLog (msg : string)
| CallFunction (script : string)
| ScrollTo (x y : Q).

End DOM.

(** ** FlowFile data *)

Module Flow.

(** [slide.media] *)
Record Media : Type := mkMedia {
  type : option string;
  url : option string;
  autoplay : option bool;
  muted : option bool;
  controls : option bool;
  loop : option bool
}.

(** One slide of a FlowFile. [target], [media], [extraClasses], [onShow]
    and [onEnd] may be left out of the JSON. *)
Record Slide : Type := mkSlide {
  title : string;
  body : string;
  style : string;
  target : option string;
  media : option Media;
  extraClasses : option (list string);
  onShow : option string;
  onEnd : option string
}.

End Flow.

(** ** Constructor options *)

Module Config.

Record ButtonHtml : Type := mkButtonHtml {
  next : option string;
  prev : option string;
  exit : option string
}.

Record Options : Type := mkOptions {
  flowURL : string;
  autoScroll : option bool;
  keyEvents : option bool;
  cssPrefix : option string;
  buttonHtml : option ButtonHtml;
  clickOverlayClosesTour : option bool;
  overlay : option bool
}.

End Config.

(** ** The controller *)

Module Orient.

Import JS DOM.

(** The fields of the [Orient] object. *)
Record Self : Type := mkSelf {
  flowURL : string;
  flowData : list Flow.Slide;
  activeSlideIndex : option Z;
  activeSlideEl : option ElId;
  slideEl : option ElId;
  attachTargetEl : option ElId;
  autoScroll : bool;
  cssPrefix : option string;
  buttonHtml : Config.ButtonHtml;
  clickOverlayClosesTour : bool;
  overlay : bool
}.

(** What the page answers to a selector: the string is no selector at
    all, or it selects an element, or it selects none. *)
Inductive Query : Type :=
| Malformed
| Found (el : ElId)
| NotFound.

Record World : Type := mkWorld {
  self : Self;
  elements : list Element;
  bodyChildren : list ElId;
  window : Window;
  querySelector : string -> Query;
  keydownBound : bool;
  resizeBound : bool;
  trace : list Event;
  script : string -> option Exn
}.

Definition set_flowURL (v : string) (o : Self) : Self :=
  mkSelf v (flowData o) (activeSlideIndex o) (activeSlideEl o) (slideEl o)
    (attachTargetEl o) (autoScroll o) (cssPrefix o) (buttonHtml o)
    (clickOverlayClosesTour o) (overlay o).

Definition set_flowData (v : list Flow.Slide) (o : Self) : Self :=
  mkSelf (flowURL o) v (activeSlideIndex o) (activeSlideEl o) (slideEl o)
    (attachTargetEl o) (autoScroll o) (cssPrefix o) (buttonHtml o)
    (clickOverlayClosesTour o) (overlay o).

Definition set_activeSlideIndex (v : option Z) (o : Self) : Self :=
  mkSelf (flowURL o) (flowData o) v (activeSlideEl o) (slideEl o)
    (attachTargetEl o) (autoScroll o) (cssPrefix o) (buttonHtml o)
    (clickOverlayClosesTour o) (overlay o).

Definition set_activeSlideEl (v : option ElId) (o : Self) : Self :=
  mkSelf (flowURL o) (flowData o) (activeSlideIndex o) v (slideEl o)
    (attachTargetEl o) (autoScroll o) (cssPrefix o) (buttonHtml o)
    (clickOverlayClosesTour o) (overlay o).

Definition set_slideEl (v : option ElId) (o : Self) : Self :=
  mkSelf (flowURL o) (flowData o) (activeSlideIndex o) (activeSlideEl o) v
    (attachTargetEl o) (autoScroll o) (cssPrefix o) (buttonHtml o)
    (clickOverlayClosesTour o) (overlay o).

Definition set_attachTargetEl (v : option ElId) (o : Self) : Self :=
  mkSelf (flowURL o) (flowData o) (activeSlideIndex o) (activeSlideEl o)
    (slideEl o) v (autoScroll o) (cssPrefix o) (buttonHtml o)
    (clickOverlayClosesTour o) (overlay o).

Definition with_self (f : Self -> Self) (w : World) : World :=
  mkWorld (f (self w)) (elements w) (bodyChildren w) (window w)
    (querySelector w) (keydownBound w) (resizeBound w) (trace w) (script w).

Definition with_elements (f : list Element -> list Element) (w : World) : World :=
  mkWorld (self w) (f (elements w)) (bodyChildren w) (window w)
    (querySelector w) (keydownBound w) (resizeBound w) (trace w) (script w).

Definition with_bodyChildren (f : list ElId -> list ElId) (w : World) : World :=
  mkWorld (self w) (elements w) (f (bodyChildren w)) (window w)
    (querySelector w) (keydownBound w) (resizeBound w) (trace w) (script w).

Definition with_window (f : Window -> Window) (w : World) : World :=
  mkWorld (self w) (elements w) (bodyChildren w) (f (window w))
    (querySelector w) (keydownBound w) (resizeBound w) (trace w) (script w).

Definition set_keydownBound (v : bool) (w : World) : World :=
  mkWorld (self w) (elements w) (bodyChildren w) (window w)
    (querySelector w) v (resizeBound w) (trace w) (script w).

Definition set_resizeBound (v : bool) (w : World) : World :=
  mkWorld (self w) (elements w) (bodyChildren w) (window w)
    (querySelector w) (keydownBound w) v (trace w) (script w).

Definition emit (e : Event) (w : World) : World :=
  mkWorld (self w) (elements w) (bodyChildren w) (window w)
    (querySelector w) (keydownBound w) (resizeBound w) (trace w ++ [e]) (script w).

(** *** State and exceptions *)

Inductive Outcome (A : Type) : Type :=
| Ret (a : A)
| Throw (e : Exn).
Arguments Ret {A} a.
Arguments Throw {A} e.

Definition M (A : Type) : Type := World -> Outcome A * World.

Definition ret {A} (a : A) : M A := fun w => (Ret a, w).

Definition throw {A} (e : Exn) : M A := fun w => (Throw e, w).

Definition bind {A B} (m : M A) (k : A -> M B) : M B :=
  fun w =>
    match m w with
    | (Ret a, w') => k a w'
    | (Throw e, w') => (Throw e, w')
    end.

Definition gets {A} (f : World -> A) : M A := fun w => (Ret (f w), w).

Definition modify (f : World -> World) : M unit := fun w => (Ret tt, f w).

Definition when (b : bool) (m : M unit) : M unit := if b then m else ret tt.

Declare Scope js_scope.
Delimit Scope js_scope with js.
Notation "x <- m ;; k" := (bind m (fun x => k))
  (at level 100, m at next level, right associativity) : js_scope.
Notation "m ;; k" := (bind m (fun _ => k))
  (at level 100, right associativity) : js_scope.
Local Open Scope js_scope.

(** *** Host operations *)

Definition console_error (msg : string) : M unit := modify (emit (ConsoleError msg)).

Definition console_log (msg : string) : M unit := modify (emit (ConsoleLog msg)).

(** [new Function(text)()]: the text goes to the script engine, and the
    call raises what the script raises. *)
Definition call_Function (text : string) : M unit :=
  modify (emit (CallFunction text)) ;;
  raised <- gets (fun w => script w text) ;;
  match raised with
  | Some e => throw e
  | None => ret tt
  end.

(** [document.createElement(tag)]: a fresh element. *)
Definition document_createElement (tag : string) : M ElId :=
  fun w => (Ret (length (elements w)),
            with_elements (fun h => h ++ [new_element tag]) w).

(** A write through an element reference. *)
Definition update (el : ElId) (f : Element -> Element) : M unit :=
  modify (with_elements (alter f el)).

Definition cannot_read (name : string) : Exn :=
  TypeError ("Cannot read properties of undefined (reading '" +:+ name +:+ "')").

Definition cannot_set (name : string) : Exn :=
  TypeError ("Cannot set properties of undefined (setting '" +:+ name +:+ "')").

(** A write through a slot that may hold [undefined]; [e] is what the
    engine throws when it does. *)
Definition update_slot (slot : option ElId) (e : Exn) (f : Element -> Element) : M unit :=
  match slot with
  | Some el => update el f
  | None => throw e
  end.

(** [parent.appendChild(child)] *)
Definition appendChild (parent : ElId) (child : option ElId) : M unit :=
  match child with
  | Some c => update parent (append_child c)
  | None => throw (TypeError "Failed to execute 'appendChild' on 'Node': parameter 1 is not of type 'Node'.")
  end.

Definition is_child (el : ElId) (l : list ElId) : bool := existsb (Nat.eqb el) l.

Definition remove_child (el : ElId) (l : list ElId) : list ElId :=
  List.filter (fun c => negb (Nat.eqb el c)) l.

(** [document.body.appendChild(child)]: a node already in the body moves to its end. *)
Definition body_appendChild (child : option ElId) : M unit :=
  match child with
  | Some c => modify (with_bodyChildren (fun l => remove_child c l ++ [c]))
  | None => throw (TypeError "Failed to execute 'appendChild' on 'Node': parameter 1 is not of type 'Node'.")
  end.

(** [document.body.removeChild(child)] *)
Definition body_removeChild (child : option ElId) : M unit :=
  match child with
  | None => throw (TypeError "Failed to execute 'removeChild' on 'Node': parameter 1 is not of type 'Node'.")
  | Some c =>
      l <- gets bodyChildren ;;
      if is_child c l then modify (with_bodyChildren (remove_child c))
      else throw (NotFoundError "Failed to execute 'removeChild' on 'Node': The node to be removed is not a child of this node.")
  end.

(** [document.querySelector(sel)]: raises on a string that is not a
    selector; an element is found only if it exists in the store. *)
Definition document_querySelector (sel : string) : M (option ElId) :=
  fun w =>
    match querySelector w sel with
    | Malformed =>
        (Throw (SyntaxError ("Failed to execute 'querySelector' on 'Document': '"
                             +:+ sel +:+ "' is not a valid selector.")), w)
    | Found el => (Ret (if Nat.ltb el (length (elements w)) then Some el else None), w)
    | NotFound => (Ret None, w)
    end.

(** [window.scrollTo(x, y)] *)
Definition window_scrollTo (x y : Q) : M unit :=
  modify (fun w => emit (ScrollTo x y) (with_window (scroll_to x y) w)).

(** Reading a property of a value that may be [undefined]. *)
Definition prop {A B} (o : option A) (name : string) (f : A -> B) : M B :=
  match o with
  | Some a => ret (f a)
  | None => throw (cannot_read name)
  end.

(** [self.flowData[self.activeSlideIndex]] *)
Definition currentSlide (w : World) : option Flow.Slide :=
  index (flowData (self w)) (activeSlideIndex (self w)).

Definition flowSlide : M (option Flow.Slide) := gets currentSlide.

(** *** [createElement] *)

(** The [options] object of [createElement]. *)
Record ElementOptions : Type := mkElementOptions {
  o_type : string;
  o_className : option string;
  o_text : option string;
  o_html : option string;
  o_events : option (list (string * option Handler))
}.

(** [for (var eventName in options.events) newEl.addEventListener(...)] *)
Fixpoint bind_events (newEl : ElId) (events : list (string * option Handler)) : M unit :=
  match events with
  | [] => ret tt
  | (eventName, fn) :: rest =>
      update newEl (add_listener eventName fn) ;;
      bind_events newEl rest
  end.

Definition createElement (options : ElementOptions) : M ElId :=
  newEl <- document_createElement (o_type options) ;;
  when (truthy_string (o_className options))
    (update newEl (set_className (or_string (o_className options) EmptyString))) ;;
  (if truthy_string (o_text options)
   then update newEl (set_content (InnerText (or_string (o_text options) EmptyString)))
   else when (truthy_string (o_html options))
          (update newEl (set_content (InnerHTML (or_string (o_html options) EmptyString))))) ;;
  match o_events options with
  | Some events => bind_events newEl events
  | None => ret tt
  end ;;
  ret newEl.

Definition div (cls : string) : ElementOptions :=
  mkElementOptions "div" (Some cls) None None None.

Definition button (cls : string) (html : string) (click : Handler) : ElementOptions :=
  mkElementOptions "div" (Some cls) None (Some html) (Some [("click"%string, Some click)]).

(** *** Positioning *)

(** A reference that came from the store always finds its element. *)
Definition element (el : ElId) : M Element :=
  h <- gets elements ;;
  match h !! el with
  | Some e => ret e
  | None => throw (TypeError "not an element")
  end.

Definition getElAbsolutePosition (el : ElId) : M Rect :=
  e <- element el ;;
  w <- gets window ;;
  let rect := client_rect w e in
  let scroll :=
    if truthy_number (scrollX w) && truthy_number (scrollY w)
    then (default 0%Q (scrollX w), default 0%Q (scrollY w))
    else (pageXOffset w, pageYOffset w) in
  ret (mkRect (left rect + fst scroll)%Q
              (right rect + fst scroll)%Q
              (top rect + snd scroll)%Q
              (bottom rect + snd scroll)%Q
              (height rect)
              (width rect)).

Definition removeAttachedTargetStyles : M unit :=
  t <- gets (fun w => attachTargetEl (self w)) ;;
  match t with
  | Some el =>
      update el remove_style ;;
      update el (classList_remove "orient-target-el")
  | None => ret tt
  end.

Definition positionSlide : M unit :=
  flowSlideData <- flowSlide ;;
  attachTarget <- prop flowSlideData "target" Flow.target ;;
  if negb (truthy_string attachTarget) then ret tt
  else
    let attachTarget := or_string attachTarget EmptyString in
    (if String.eqb (substring 0 1 attachTarget) "#" || String.eqb (substring 0 1 attachTarget) "."
     then
       el <- document_querySelector attachTarget ;;
       modify (with_self (set_attachTargetEl el))
     else
       el <- document_querySelector ("[data-orient-target='" +:+ attachTarget +:+ "']") ;;
       modify (with_self (set_attachTargetEl el))) ;;
    t <- gets (fun w => attachTargetEl (self w)) ;;
    s <- gets (fun w => slideEl (self w)) ;;
    match t with
    | None =>
        console_error ("[ORIENT] Could not attach slide to element " +:+ attachTarget) ;;
        update_slot s (cannot_read "style") (style_assign "top" (Px 0)) ;;
        update_slot s (cannot_read "style") (style_assign "left" (Px 0))
    | Some tEl =>
        update tEl (classList_add "orient-target-el") ;;
        boundingRect <- getElAbsolutePosition tEl ;;
        w <- gets window ;;
        (if Qgtb (left boundingRect + 360)%Q (innerWidth w)
         then
           update_slot s (cannot_read "classList") (classList_add "orient-slide--aligned-right") ;;
           update_slot s (cannot_read "style")
             (style_assign "right" (Px (innerWidth w - right boundingRect)%Q))
         else
           update_slot s (cannot_read "style") (style_assign "left" (Px (left boundingRect)))) ;;
        update_slot s (cannot_read "style")
          (style_assign "top" (Px (top boundingRect + height boundingRect)%Q)) ;;
        auto <- gets (fun w => autoScroll (self w)) ;;
        when auto
          (let scrollY := ((top boundingRect + height boundingRect) - (innerHeight w / 2))%Q in
           let scrollY := if Qltb scrollY 0 then 0%Q else scrollY in
           window_scrollTo 0 scrollY)
    end.

(** *** [buildSlide] *)

(** [for (i ...) this.slideEl.className += ' ' + extraClasses[i]] *)
Fixpoint add_extraClasses (el : ElId) (classes : list string) : M unit :=
  match classes with
  | [] => ret tt
  | c :: rest =>
      update el (fun e => set_className (className e +:+ " " +:+ c) e) ;;
      add_extraClasses el rest
  end.

(** The media block of [buildSlide] (image or video). *)
Definition buildMedia (slideEl : ElId) (m : Flow.Media) : M unit :=
  slideMediaWrapperEl <- createElement (div "orient-slide__media") ;;
  slideMediaEl <-
    match Flow.type m with
    | Some t =>
        if String.eqb t "video" then
          el <- document_createElement "video" ;;
          update el (set_video_flags
                       (default true (Flow.muted m))
                       (default true (Flow.loop m))
                       (default false (Flow.controls m))
                       (default true (Flow.autoplay m))) ;;
          ret (Some el)
        else if String.eqb t "image" then
          el <- document_createElement "img" ;;
          ret (Some el)
        else ret None
    | None => ret None
    end ;;
  when (negb (truthy_ref slideMediaEl))
    (console_error "[ORIENT] Media type should be 'video' or 'image'") ;;
  (if truthy_string (Flow.url m)
   then update_slot slideMediaEl (cannot_set "src")
          (set_src (or_string (Flow.url m) EmptyString))
   else
     i <- gets (fun w => activeSlideIndex (self w)) ;;
     console_error ("[ORIENT] URL not specified for the media element on slide "
                    +:+ string_of_Z (to_number i + 1))) ;;
  (* Insert slide media element (image or video) into the wrapper element *)
  appendChild slideMediaWrapperEl slideMediaEl ;;
  (* Insert the wrapper element into the slide element *)
  appendChild slideEl (Some slideMediaWrapperEl).

(** The text block of [buildSlide]: title and body. *)
Definition buildText (flowSlideData : Flow.Slide) : M ElId :=
  textWrapperEl <- createElement (div "orient-slide__text-wrapper") ;;
  (* Title *)
  titleEl <- createElement
    (mkElementOptions "div" (Some "orient-slide__title"%string)
       (Some (Flow.title flowSlideData)) None None) ;;
  appendChild textWrapperEl (Some titleEl) ;;
  (* Text *)
  bodyEl <- createElement
    (mkElementOptions "div" (Some "orient-slide__body"%string)
       (Some (Flow.body flowSlideData)) None None) ;;
  appendChild textWrapperEl (Some bodyEl) ;;
  ret textWrapperEl.

(** The button block of [buildSlide]: next, prev, close buttons, wrapped
    in a button wrapper element. *)
Definition buildButtons : M ElId :=
  buttonWrapperEl <- createElement (div "orient-slide__button-wrapper") ;;
  html <- gets (fun w => buttonHtml (self w)) ;;
  exitEl <- createElement
    (button "orient-slide__button orient-slide__close-button"
       (or_string (Config.exit html) "Exit") H_stopFlow) ;;
  appendChild buttonWrapperEl (Some exitEl) ;;
  i <- gets (fun w => activeSlideIndex (self w)) ;;
  n <- gets (fun w => Z.of_nat (length (flowData (self w)))) ;;
  when (Z.gtb (to_number i) 0)
    (prevEl <- createElement
       (button "orient-slide__button orient-slide__prev-button"
          (or_string (Config.prev html) "Prev") H_prevSlide) ;;
     appendChild buttonWrapperEl (Some prevEl)) ;;
  when (Z.ltb (to_number i) (n - 1))
    (nextEl <- createElement
       (button "orient-slide__button orient-slide__next-button"
          (or_string (Config.next html) "Next") H_nextSlide) ;;
     appendChild buttonWrapperEl (Some nextEl)) ;;
  ret buttonWrapperEl.

(** The last block of [buildSlide]: a wrapper element for the slide and
    the overlay. *)
Definition buildWrapper (slideEl : ElId) : M ElId :=
  prefix <- gets (fun w => cssPrefix (self w)) ;;
  slideWrapperEl <- createElement
    (div (or_string prefix EmptyString +:+ " orient-slide-wrapper")) ;;
  (* Also create and insert the overlay element. *)
  ov <- gets (fun w => overlay (self w)) ;;
  closes <- gets (fun w => clickOverlayClosesTour (self w)) ;;
  when ov
    (overlayEl <- createElement
       (mkElementOptions "div" (Some "orient-slide__overlay"%string) None None
          (Some [("click"%string, if closes then Some H_stopFlow else None)])) ;;
     appendChild slideWrapperEl (Some overlayEl)) ;;
  appendChild slideWrapperEl (Some slideEl) ;;
  ret slideWrapperEl.

(** The rest of [buildSlide]: text and buttons in a content wrapper,
    the [onShow] script, the slide wrapper. *)
Definition buildContent (slideEl : ElId) (flowSlideData : Flow.Slide) : M ElId :=
  textWrapperEl <- buildText flowSlideData ;;
  buttonWrapperEl <- buildButtons ;;
  slideContentWrapperEl <- createElement (div "orient-slide__content") ;;
  appendChild slideContentWrapperEl (Some textWrapperEl) ;;
  appendChild slideContentWrapperEl (Some buttonWrapperEl) ;;
  appendChild slideEl (Some slideContentWrapperEl) ;;
  when (truthy_string (Flow.onShow flowSlideData))
    (scriptEl <- createElement
       (mkElementOptions "script" None None (Flow.onShow flowSlideData) None) ;;
     appendChild slideEl (Some scriptEl)) ;;
  buildWrapper slideEl.

Definition buildSlide : M ElId :=
  flowSlideData <- flowSlide ;;
  match flowSlideData with
  | None => throw (cannot_read "style")
  | Some flowSlideData =>
      slideEl <- createElement
        (div ("animated fadeInDown orient-slide orient-slide--" +:+ Flow.style flowSlideData)) ;;
      modify (with_self (set_slideEl (Some slideEl))) ;;
      (* Add any custom class names which have been provided for this slide. *)
      match Flow.extraClasses flowSlideData with
      | Some classes => add_extraClasses slideEl classes
      | None => ret tt
      end ;;
      when (String.eqb (Flow.style flowSlideData) "float")
        (modify (with_self (set_attachTargetEl None)) ;;
         positionSlide) ;;
      (* Media (image or video) *)
      match Flow.media flowSlideData with
      | Some m => buildMedia slideEl m
      | None => ret tt
      end ;;
      buildContent slideEl flowSlideData
  end.

(** *** Navigation *)

(** Inserts the currently active slide into the page. *)
Definition insertSlide : M unit :=
  el <- gets (fun w => activeSlideEl (self w)) ;;
  body_appendChild el.

(** Stops a flow. *)
Definition stopFlow : M unit :=
  el <- gets (fun w => activeSlideEl (self w)) ;;
  when (truthy_ref el)
    (body_removeChild el ;;
     removeAttachedTargetStyles) ;;
  modify (with_self (set_activeSlideIndex None)) ;;
  modify (with_self (set_activeSlideEl None)) ;;
  modify (set_keydownBound false).

(** Starts a flow from the beginning. *)
Definition startFlow : M unit :=
  modify (with_self (set_activeSlideIndex (Some 0))) ;;
  el <- buildSlide ;;
  modify (with_self (set_activeSlideEl (Some el))) ;;
  insertSlide.

(** [if (slide.onEnd) { new Function(slide.onEnd)() }] on the current slide. *)
Definition run_onEnd : M unit :=
  flowSlideData <- flowSlide ;;
  onEnd <- prop flowSlideData "onEnd" Flow.onEnd ;;
  when (truthy_string onEnd) (call_Function (or_string onEnd EmptyString)).

(** Moves to the next slide in the flow. *)
Definition nextSlide : M unit :=
  (* Remove current slide from the page *)
  el <- gets (fun w => activeSlideEl (self w)) ;;
  body_removeChild el ;;
  removeAttachedTargetStyles ;;
  (* Run onEnd function for this slide if it's set *)
  run_onEnd ;;
  modify (with_self (fun o => set_activeSlideIndex (Some (to_number (activeSlideIndex o) + 1)) o)) ;;
  i <- gets (fun w => activeSlideIndex (self w)) ;;
  n <- gets (fun w => Z.of_nat (length (flowData (self w)))) ;;
  if Z.gtb (to_number i) (n - 1) then
    (* We've reached the end of the flow *)
    modify (with_self (set_activeSlideEl None)) ;;
    stopFlow
  else
    (* Build and insert the next slide *)
    el <- buildSlide ;;
    modify (with_self (set_activeSlideEl (Some el))) ;;
    insertSlide.

(** Moves to the previous slide in the flow. *)
Definition prevSlide : M unit :=
  (* Run onEnd function for this slide if it's set *)
  run_onEnd ;;
  i <- gets (fun w => activeSlideIndex (self w)) ;;
  if Z.gtb (to_number i) 0 then
    (* Remove current slide from the page *)
    el <- gets (fun w => activeSlideEl (self w)) ;;
    body_removeChild el ;;
    removeAttachedTargetStyles ;;
    modify (with_self (fun o => set_activeSlideIndex (Some (to_number (activeSlideIndex o) - 1)) o)) ;;
    el <- buildSlide ;;
    modify (with_self (set_activeSlideEl (Some el))) ;;
    insertSlide
  else
    console_log "[ORIENT] At start of flow - can't go any further back.".

(** Jumps to a specific slide in the flow; [slideNo] is NOT zero-indexed. *)
Definition jumpToSlide (slideNo : Z) : M unit :=
  n <- gets (fun w => Z.of_nat (length (flowData (self w)))) ;;
  if Z.ltb slideNo 1 || Z.gtb slideNo n then
    console_error ("[ORIENT] Slide number must be between 1 and " +:+ string_of_Z n +:+ " inclusive.")
  else
    (* Remove current slide from the page *)
    el <- gets (fun w => activeSlideEl (self w)) ;;
    body_removeChild el ;;
    modify (with_self (set_activeSlideIndex (Some (slideNo - 1)))) ;;
    (* Build and insert the next slide *)
    el <- buildSlide ;;
    modify (with_self (set_activeSlideEl (Some el))) ;;
    insertSlide.

(** Sets the flowURL to the passed parameter and stops the current flow. *)
Definition setFlowURL (newURL : string) : M unit :=
  stopFlow ;;
  modify (with_self (set_flowURL newURL)).

(** Maps keydown events to next and prev slides and stop. *)
Definition handleKeyDown (keyCode : Z) : M unit :=
  match keyCode with
  | 39 => nextSlide
  | 37 => prevSlide
  | 27 => stopFlow
  | _ => ret tt
  end.

(** *** Loading *)

(** The [load] event of the request: [responseJSON] is what
    [JSON.parse(responseText)] returns, [None] when it throws (what it
    throws is caught and only shown on the console). *)
Record Response : Type := mkResponse {
  readyState : Z;
  status : Z;
  responseJSON : option (list Flow.Slide)
}.

Definition flowLoaded (response : Response) : M unit :=
  if Z.eqb (readyState response) 4 && Z.eqb (status response) 200 then
    match responseJSON response with
    | Some data => modify (with_self (set_flowData data))
    | None => console_error "[ORIENT] There was a problem parsing the FlowFile."
    end
  else
    url <- gets (fun w => flowURL (self w)) ;;
    console_error ("[ORIENT] Couldn't load FlowFile. Please check the URL is correct: "
                   +:+ " " +:+ url).

Definition flowError : M unit :=
  url <- gets (fun w => flowURL (self w)) ;;
  console_error ("[ORIENT] There was a problem making a request to the FlowFile at"
                 +:+ " " +:+ url).

(** What [loadFlow(afterLoad)] registers for the [load] event. *)
Definition loadFlow_onLoad (afterLoad : M unit) (response : Response) : M unit :=
  flowLoaded response ;;
  afterLoad.

(** *** Construction *)

Definition init (options : Config.Options) : M unit :=
  modify (with_self (fun o =>
    mkSelf (Config.flowURL options) [] (Some 0) (activeSlideEl o) (slideEl o)
      (attachTargetEl o)
      (match Config.autoScroll options with Some false => false | _ => true end)
      (Config.cssPrefix options)
      (default (Config.mkButtonHtml None None None) (Config.buttonHtml options))
      (default false (Config.clickOverlayClosesTour options))
      (match Config.overlay options with Some false => false | _ => true end))) ;;
  when (default false (Config.keyEvents options)) (modify (set_keydownBound true)) ;;
  modify (set_resizeBound true).

(** The object before [init] runs: every field [undefined]. *)
Definition blank : Self :=
  mkSelf EmptyString [] None None None None false None
    (Config.mkButtonHtml None None None) false false.

(** A page: its elements, the children of its body, its window and how
    its selectors resolve. Its script engine runs every text to its
    end; [with_script] gives it another one. *)
Definition page (els : list Element) (kids : list ElId) (win : Window)
    (qs : string -> Query) : World :=
  mkWorld blank els kids win qs false false [] (fun _ => None).


(** [new Orient(options)] on a page. *)
Definition new_Orient (options : Config.Options) (pg : World) : World :=
  snd (init options pg).

(** Running a method for its effect on the world. *)
Definition exec {A} (m : M A) (w : World) : World := snd (m w).

Definition outcome {A} (m : M A) (w : World) : Outcome A := fst (m w).

End Orient.

(** ** Reading the world

  What the statements below say about a world: which slide an element
  shows, whether a slide is rendered, what a target resolves to. *)

Module View.

Import JS DOM Orient.

(** The selector [positionSlide] hands to [document.querySelector]. *)
Definition selector (attachTarget : string) : string :=
  if String.eqb (substring 0 1 attachTarget) "#" || String.eqb (substring 0 1 attachTarget) "."
  then attachTarget
  else "[data-orient-target='" +:+ attachTarget +:+ "']".

(** The page takes the target's selector for a selector. *)
Definition well_formed (w : World) (attachTarget : string) : bool :=
  match querySelector w (selector attachTarget) with
  | Malformed => false
  | _ => true
  end.

(** The element a target resolves to on the page. *)
Definition resolve (w : World) (attachTarget : string) : option ElId :=
  match querySelector w (selector attachTarget) with
  | Found el => if Nat.ltb el (length (elements w)) then Some el else None
  | _ => None
  end.

(** The box [getElAbsolutePosition] computes for an element. *)
Definition absolute (win : Window) (e : Element) : Rect :=
  let rect := client_rect win e in
  let scroll :=
    if truthy_number (scrollX win) && truthy_number (scrollY win)
    then (default 0%Q (scrollX win), default 0%Q (scrollY win))
    else (pageXOffset win, pageYOffset win) in
  mkRect (left rect + fst scroll)%Q (right rect + fst scroll)%Q
         (top rect + snd scroll)%Q (bottom rect + snd scroll)%Q
         (height rect) (width rect).

(** [scrollY = (scrollY < 0) ? 0 : scrollY] *)
Definition clamp0 (q : Q) : Q := if Qltb q 0 then 0%Q else q.

(** The listeners [createElement] binds. *)
Definition listen (events : list (string * option Handler)) (e : Element) : Element :=
  fold_left (fun e ev => add_listener (fst ev) (snd ev) e) events e.

(** The element [createElement(options)] returns. *)
Definition made (o : ElementOptions) : Element :=
  let e0 := new_element (o_type o) in
  let e1 := if truthy_string (o_className o)
            then set_className (or_string (o_className o) EmptyString) e0 else e0 in
  let e2 := if truthy_string (o_text o)
            then set_content (InnerText (or_string (o_text o) EmptyString)) e1
            else if truthy_string (o_html o)
                 then set_content (InnerHTML (or_string (o_html o) EmptyString)) e1
                 else e1 in
  listen (default [] (o_events o)) e2.

(** The world with its element store replaced by an old part and a new part. *)
Definition W (w : World) (H L : list Element) : World :=
  with_elements (fun _ => H ++ L) w.

(** The scripts run through [new Function], in order. *)
Definition is_call (e : Event) : bool :=
  match e with
  | CallFunction _ => true
  | _ => false
  end.

Definition calls (tr : list Event) : list Event := List.filter is_call tr.

(** What building a slide leaves alone. *)
Definition kept (w w' : World) : Prop :=
  flowData (self w') = flowData (self w) /\
  activeSlideIndex (self w') = activeSlideIndex (self w) /\
  activeSlideEl (self w') = activeSlideEl (self w) /\
  bodyChildren w' = bodyChildren w /\
  calls (trace w') = calls (trace w) /\
  querySelector w' = querySelector w /\
  (length (elements w) <= length (elements w'))%nat.

(** A slide whose media block [buildSlide] can build: no media, or media
    of a type it knows. *)
Definition known_media (m : Flow.Media) : bool :=
  match Flow.type m with
  | Some t => String.eqb t "video" || String.eqb t "image"
  | None => false
  end.

Definition renderable (d : Flow.Slide) : bool :=
  match Flow.media d with
  | Some m => known_media m
  | None => true
  end.

(** A slide whose target, if it is a float slide with a target, is a
    selector for the page. *)
Definition targetable (w : World) (d : Flow.Slide) : bool :=
  if String.eqb (Flow.style d) "float" then
    match Flow.target d with
    | Some (String c r) => well_formed w (String c r)
    | _ => true
    end
  else true.

(** A valid slide for the page: [buildSlide] builds it. *)
Definition valid (w : World) (d : Flow.Slide) : bool :=
  renderable d && targetable w d.


(** A slide element is rendered: [activeSlideEl] holds an element that
    is a child of the body. *)
Definition rendered (w : World) : bool :=
  match activeSlideEl (self w) with
  | Some el => is_child el (bodyChildren w)
  | None => false
  end.

(** The controller is idle: no rendered slide element, index unset. *)
Definition idle (w : World) : bool :=
  match activeSlideEl (self w), activeSlideIndex (self w) with
  | None, None => true
  | _, _ => false
  end.

(** What [createElement] leaves in an element for a [text] option. *)
Definition text_content (s : string) : Content :=
  match s with
  | EmptyString => NoContent
  | _ => InnerText s
  end.

Definition content_eqb (a b : Content) : bool :=
  match a, b with
  | NoContent, NoContent => true
  | InnerText x, InnerText y => String.eqb x y
  | InnerHTML x, InnerHTML y => String.eqb x y
  | _, _ => false
  end.

(** Element [x] has class attribute [cls] and text [txt]. *)
Definition has_text (w : World) (x : ElId) (cls txt : string) : bool :=
  match elements w !! x with
  | Some e => String.eqb (className e) cls && content_eqb (content e) (text_content txt)
  | None => false
  end.

(** Element [t] is the text wrapper of slide [d]: a title and a body. *)
Definition is_text (w : World) (t : ElId) (d : Flow.Slide) : bool :=
  match elements w !! t with
  | Some te =>
      match children te with
      | [ti; bo] =>
          has_text w ti "orient-slide__title" (Flow.title d)
          && has_text w bo "orient-slide__body" (Flow.body d)
      | _ => false
      end
  | None => false
  end.

(** Element [c] is the content wrapper of slide [d]: its first child is
    the text wrapper. *)
Definition is_content (w : World) (c : ElId) (d : Flow.Slide) : bool :=
  match elements w !! c with
  | Some ce =>
      match children ce with
      | t :: _ => is_text w t d
      | [] => false
      end
  | None => false
  end.

(** Element [el] is a slide wrapper that shows slide [d]: its last child
    is the slide element, which holds the content of [d]. *)
Definition shows (w : World) (el : ElId) (d : Flow.Slide) : bool :=
  match elements w !! el with
  | Some wrapper =>
      match last (children wrapper) with
      | Some s =>
          match elements w !! s with
          | Some slide => existsb (fun c => is_content w c d) (children slide)
          | None => false
          end
      | None => false
      end
  | None => false
  end.

(** *** The subtree of a rendered slide

    What [buildSlide] is to put on the page for slide [d] at the current
    index: every element with its tag, class attribute, content, click
    listeners and children. *)

(** The class attribute [buildSlide] gives the slide element: the base
    classes, then the custom classes in the order of the FlowFile. *)
Definition with_extraClasses (base : string) (classes : list string) : string :=
  fold_left (fun cn c => cn +:+ " " +:+ c) classes base.





















(** [activeSlideEl], when set, is a child of the body. *)
Definition attached (w : World) : bool :=
  match activeSlideEl (self w) with
  | Some el => is_child el (bodyChildren w)
  | None => true
  end.

(** The target element carries the highlight class. *)
Definition highlighted (w : World) (el : ElId) : bool :=
  match elements w !! el with
  | Some e => ClassList.contains "orient-target-el" (className e)
  | None => false
  end.

(** An inline style property of an element. *)
Definition inline (w : World) (el : ElId) (name : string) : option CssValue :=
  match elements w !! el with
  | Some e => style e !! name
  | None => None
  end.

End View.

(** ** A page and two flows to run the controller on *)

Module Demo.

Import JS DOM Orient View.

(** A heading with the layout box {x:100, y:50, width:80, height:20}. *)
Definition heading : Element :=
  mkElement "h1" "title" NoContent None None None None None ∅ [] []
    (mkBox 100 50 80 20).

(** A browser that keeps the page within a document 4000 wide and 4000
    high, seen through a window of the given size, and rounds offsets to
    whole pixels. *)
Definition pixel (limit q : Q) : Q :=
  inject_Z (Qfloor (Qmax 0 (Qmin limit q) + 1 / 2)).

Definition browser (width height : Q) (x y : Q) : Q * Q :=
  (pixel (4000 - width) x, pixel (4000 - height) y).

(** A window of the given width, scrolled sideways by [x]. *)
Definition win (width x : Q) : Window :=
  mkWindow width 600 true x 0 (browser width 600).

(** [#a] selects the heading, [#] alone is no selector, anything else
    selects nothing. *)
Definition find (sel : string) : Query :=
  if String.eqb sel "#a" then Found 0%nat
  else if String.eqb sel "#" then Malformed
  else NotFound.

Definition options : Config.Options :=
  Config.mkOptions "tour.json" None None None None None None.

(** A float slide attached to the heading. *)
Definition anchored : Flow.Slide :=
  Flow.mkSlide "First" "Look here" "float" (Some "#a"%string) None None None
    (Some "bye()"%string).

Definition plain : Flow.Slide :=
  Flow.mkSlide "Second" "And then" "modal" None None None None None.

(** A float slide without a target. *)
Definition loose : Flow.Slide :=
  Flow.mkSlide "Nowhere" "No target" "float" None None None None None.

(** A slide whose media has a type [buildSlide] does not know. *)
Definition audio : Flow.Slide :=
  Flow.mkSlide "Listen" "A sound" "modal" None
    (Some (Flow.mkMedia (Some "audio"%string) (Some "a.mp3"%string) None None None None))
    None None None.

(** A slide whose media has neither type nor url. *)
Definition untyped : Flow.Slide :=
  Flow.mkSlide "Empty" "No type" "modal" None
    (Some (Flow.mkMedia None None None None None None)) None None None.

(** A float slide whose target is not a selector. *)
Definition broken : Flow.Slide :=
  Flow.mkSlide "Broken" "Bad target" "float" (Some "#"%string) None None None None.

(** A video slide without a url. *)
Definition silent : Flow.Slide :=
  Flow.mkSlide "Watch" "A film" "modal" None
    (Some (Flow.mkMedia (Some "video"%string) None None None None None))
    None None None.



(** A low window, 101 high. *)
Definition low (width x : Q) : Window :=
  mkWindow width 101 true x 0 (browser width 101).

(** [new Orient(options)] on the page, with [flow] loaded. *)
Definition loaded (flow : list Flow.Slide) (w : Window) : World :=
  exec (flowLoaded (mkResponse 4 200 (Some flow)))
    (new_Orient options (page [heading] [0%nat] w find)).

End Demo.

(** ** Calls and events

    The controller is driven from outside: by calls of its public
    methods, by key presses and resizes (through the listeners [init]
    binds) and by clicks on the elements [buildSlide] gave a handler. *)

Module Session.

Import JS DOM Orient View.

(** A computation stays within a relation between the world it starts
    in and the world it leaves, whether it returns or raises. *)
Definition stays {A : Type} (R : World -> World -> Prop) (m : M A) : Prop :=
  forall w, R w (snd (m w)).

(** Two worlds look the same to an observation. *)
Definition same {X : Type} (f : World -> X) (w w' : World) : Prop := f w' = f w.

(** The keyboard listener is not added: if it was not bound before, it
    is not bound after. *)
Definition not_bound (w w' : World) : Prop :=
  keydownBound w = false -> keydownBound w' = false.

(** What navigation reads and never writes: the flow, the options, the
    page's selectors and the resize listener. *)
Definition setting (w : World) :=
  (flowData (self w), autoScroll (self w), cssPrefix (self w), buttonHtml (self w),
   clickOverlayClosesTour (self w), overlay (self w), querySelector w, resizeBound w).

(** The tour as the navigation methods own it: everything but the
    element store, [slideEl], [attachTargetEl], the window and the trace. *)
Definition tourState (w : World) :=
  (flowURL (self w), flowData (self w), activeSlideIndex (self w),
   activeSlideEl (self w), autoScroll (self w), cssPrefix (self w),
   buttonHtml (self w), clickOverlayClosesTour (self w), overlay (self w),
   bodyChildren w, querySelector w, keydownBound w, resizeBound w).

(** A handler bound to an element, as a method. *)
Definition handler (h : Handler) : M unit :=
  match h with
  | H_stopFlow => stopFlow
  | H_prevSlide => prevSlide
  | H_nextSlide => nextSlide
  end.

(** What reaches the controller. *)
Inductive Input : Type :=
| Start
| Stop
| Next
| Previous
| Jump (slideNo : Z)
| SetFlowURL (newURL : string)
| KeyDown (keyCode : Z)
| Resize
| Click (el : ElId).

(** The click listeners of an element, in the order they were bound. *)
Definition click_handlers (w : World) (el : ElId) : list Handler :=
  match elements w !! el with
  | Some e =>
      map snd (List.filter (fun l => String.eqb (fst l) "click") (listeners e))
  | None => []
  end.

(** Listeners run one after the other; one that raises does not stop the
    next. *)
Fixpoint run_handlers (hs : list Handler) (w : World) : World :=
  match hs with
  | [] => w
  | h :: rest => run_handlers rest (exec (handler h) w)
  end.

(** One input: a method call, or an event delivered to the listeners
    that are bound. An exception ends that input only. *)
Definition react (i : Input) (w : World) : World :=
  match i with
  | Start => exec startFlow w
  | Stop => exec stopFlow w
  | Next => exec nextSlide w
  | Previous => exec prevSlide w
  | Jump n => exec (jumpToSlide n) w
  | SetFlowURL u => exec (setFlowURL u) w
  | KeyDown c => if keydownBound w then exec (handleKeyDown c) w else w
  | Resize => if resizeBound w then exec positionSlide w else w
  | Click el => run_handlers (click_handlers w el) w
  end.

Fixpoint session (inputs : list Input) (w : World) : World :=
  match inputs with
  | [] => w
  | i :: rest => session rest (react i w)
  end.

(** The active element, when there is one, is in the page and the index
    is an index into the flow. *)
Definition coherent (w : World) : bool :=
  match activeSlideEl (self w) with
  | Some el =>
      is_child el (bodyChildren w)
      && match activeSlideIndex (self w) with
         | Some i => Z.leb 0 i && Z.ltb i (Z.of_nat (length (flowData (self w))))
         | None => false
         end
  | None => true
  end.

(** The click handlers of the children of an element, in order. *)
Definition child_handlers (w : World) (el : ElId) : list Handler :=
  match elements w !! el with
  | Some e => flat_map (click_handlers w) (children e)
  | None => []
  end.

(** What [removeChild] raises for a node that is not a child. *)
Definition not_a_child : Exn :=
  NotFoundError "Failed to execute 'removeChild' on 'Node': The node to be removed is not a child of this node.".

(** The world [stopFlow] leaves when a slide is rendered. *)
Definition stopped (el : ElId) (w : World) : World :=
  set_keydownBound false
    (with_self (set_activeSlideEl None)
       (with_self (set_activeSlideIndex None)
          (match attachTargetEl (self w) with
           | Some t =>
               with_elements (alter (classList_remove "orient-target-el") t)
                 (with_elements (alter remove_style t)
                    (with_bodyChildren (remove_child el) w))
           | None => with_bodyChildren (remove_child el) w
           end))).

(** *** Scenes to run the controller in *)

(** The demo tour, loaded; on its first slide; on its second slide. *)
Definition demo : World :=
  Demo.loaded [Demo.anchored; Demo.plain] (Demo.win 1200 0).

Definition on_first : World := exec startFlow demo.


(** A tour whose second slide has media of an unknown type, on its
    first slide. *)
Definition before_audio : World :=
  exec startFlow (Demo.loaded [Demo.anchored; Demo.audio] (Demo.win 1200 0)).

(** Options with keyboard control. *)
Definition keyed : Config.Options :=
  Config.mkOptions "tour.json" None (Some true) None None None None.

(** The same world on a page where no selector finds anything any more. *)
Definition emptied (w : World) : World :=
  mkWorld (self w) (elements w) (bodyChildren w) (window w) (fun _ => NotFound)
    (keydownBound w) (resizeBound w) (trace w) (script w).


(** A slide with a script to run when it is shown. *)
Definition greeting : Flow.Slide :=
  Flow.mkSlide "Hi" "Welcome" "modal" None None None (Some "hello()"%string) None.

(** A video with a url that asks for no sound control and no muting. *)
Definition film : Flow.Media :=
  Flow.mkMedia (Some "video"%string) (Some "a.mp4"%string) None (Some false) None None.

End Session.

(** * Facts

  ** Class tokens: what [classList.add] and [classList.remove] achieve *)

Module ClassListFacts.
Import ClassList.

Lemma append_cons (c : ascii) (a b : string) :
  String c a +:+ b = String c (a +:+ b).
Proof. reflexivity. Qed.

Lemma append_nil (b : string) : EmptyString +:+ b = b.
Proof. reflexivity. Qed.

Lemma append_empty_r (s : string) : s +:+ EmptyString = s.
Proof.
  induction s as [|c r IH]; [reflexivity|].
  now rewrite append_cons, IH.
Qed.

Lemma append_snoc (a b : string) (c : ascii) :
  (a +:+ String c EmptyString) +:+ b = a +:+ String c b.
Proof.
  induction a as [|x r IH]; [reflexivity|].
  now rewrite !append_cons, IH.
Qed.

Lemma no_ws_snoc (a : string) (c : ascii) :
  no_ws a = true -> is_ws c = false -> no_ws (a +:+ String c EmptyString) = true.
Proof.
  induction a as [|x r IH]; intros Ha Hc.
  - rewrite append_nil. simpl. now rewrite Hc.
  - rewrite append_cons. simpl in *.
    apply andb_true_iff in Ha as [Hx Hr]. rewrite Hx. simpl. now apply IH.
Qed.

Lemma snoc_not_empty (a : string) (c : ascii) :
  a +:+ String c EmptyString <> EmptyString.
Proof. destruct a; discriminate. Qed.

Lemma token_snoc (a : string) (c : ascii) :
  no_ws a = true -> is_ws c = false -> token (a +:+ String c EmptyString) = true.
Proof.
  intros Ha Hc. pose proof (no_ws_snoc a c Ha Hc) as H.
  unfold token. destruct (a +:+ String c EmptyString) eqn:E; [|exact H].
  now apply snoc_not_empty in E.
Qed.

(** Reading a whitespace-free run only extends the current token. *)
Lemma split_run (t cur rest : string) :
  no_ws t = true -> split cur (t +:+ rest) = split (cur +:+ t) rest.
Proof.
  revert cur. induction t as [|c r IH]; intros cur Ht.
  - now rewrite append_nil, append_empty_r.
  - rewrite append_cons. simpl in *.
    apply andb_true_iff in Ht as [Hc Hr].
    apply negb_true_iff in Hc. rewrite Hc, IH by exact Hr.
    now rewrite append_snoc.
Qed.

Lemma flush_token (t : string) : token t = true -> flush t = [t].
Proof. destruct t; [discriminate | reflexivity]. Qed.

Lemma token_no_ws (t : string) : token t = true -> no_ws t = true.
Proof. destruct t; [discriminate | trivial]. Qed.

(** Splitting a serialized token list gives the list back. *)
Lemma split_serialize (l : list string) :
  Forall (fun t => token t = true) l -> split EmptyString (serialize l) = l.
Proof.
  induction 1 as [|t r Ht Hr IH]; [reflexivity|].
  destruct r as [|u r'].
  - simpl. rewrite <- (append_empty_r t) at 1.
    rewrite split_run by now apply token_no_ws.
    simpl. now apply flush_token.
  - change (serialize (t :: u :: r')) with (t +:+ String " "%char (serialize (u :: r'))).
    rewrite split_run by now apply token_no_ws.
    change (split (EmptyString +:+ t) (String " "%char (serialize (u :: r'))))
      with (flush t ++ split EmptyString (serialize (u :: r'))).
    rewrite IH. now rewrite flush_token.
Qed.

Lemma flush_tokens (cur : string) :
  no_ws cur = true -> Forall (fun t => token t = true) (flush cur).
Proof. destruct cur; simpl; intros H; constructor; [exact H | constructor]. Qed.

Lemma split_tokens (s cur : string) :
  no_ws cur = true -> Forall (fun t => token t = true) (split cur s).
Proof.
  revert cur. induction s as [|c r IH]; simpl; intros cur Hcur.
  - now apply flush_tokens.
  - destruct (is_ws c) eqn:Hc.
    + apply Forall_app. split; [now apply flush_tokens | now apply IH].
    + apply IH. now apply no_ws_snoc.
Qed.

Lemma mem_spec (t : string) (l : list string) : mem t l = true <-> t ∈ l.
Proof.
  unfold mem. induction l as [|u r IH]; simpl.
  - split; [discriminate | intros H; inversion H].
  - rewrite orb_true_iff, IH, String.eqb_eq, elem_of_cons. tauto.
Qed.

Lemma mem_false (t : string) (l : list string) : mem t l = false <-> t ∉ l.
Proof.
  rewrite <- mem_spec. destruct (mem t l); split; congruence.
Qed.

Lemma dedup_sub (l seen : list string) (t : string) :
  t ∈ dedup seen l -> t ∈ l /\ t ∉ seen.
Proof.
  revert seen. induction l as [|u r IH]; simpl; intros seen H.
  - inversion H.
  - destruct (mem u seen) eqn:E.
    + apply IH in H as [H1 H2]. split; [now apply elem_of_cons; right | exact H2].
    + apply elem_of_cons in H as [->|H].
      * split; [apply elem_of_cons; now left | now apply mem_false].
      * apply IH in H as [H1 H2]. split; [apply elem_of_cons; now right|].
        intros Hin. apply H2. apply elem_of_cons. now right.
Qed.

Lemma dedup_NoDup (l seen : list string) : NoDup (dedup seen l).
Proof.
  revert seen. induction l as [|u r IH]; simpl; intros seen.
  - constructor.
  - destruct (mem u seen); [apply IH|].
    constructor; [|apply IH].
    intros H. apply dedup_sub in H as [_ H]. apply H. apply elem_of_cons. now left.
Qed.

Lemma dedup_id (l seen : list string) :
  NoDup l -> (forall t, t ∈ l -> t ∉ seen) -> dedup seen l = l.
Proof.
  intros Hnd. revert seen. induction Hnd as [|u r Hu Hr IH]; simpl; intros seen Hs.
  - reflexivity.
  - assert (E : mem u seen = false).
    { apply mem_false, Hs, elem_of_cons. now left. }
    rewrite E. f_equal. apply IH. intros t Ht Hin.
    apply elem_of_cons in Hin as [->|Hin]; [contradiction|].
    apply (Hs t); [apply elem_of_cons; now right | exact Hin].
Qed.

Lemma dedup_tokens (l seen : list string) :
  Forall (fun t => token t = true) l -> Forall (fun t => token t = true) (dedup seen l).
Proof.
  intros H. revert seen. induction H as [|u r Hu Hr IH]; simpl; intros seen.
  - constructor.
  - destruct (mem u seen); [apply IH | constructor; [exact Hu | apply IH]].
Qed.

Lemma tokens_token (cn : string) : Forall (fun t => token t = true) (tokens cn).
Proof. apply dedup_tokens, split_tokens. reflexivity. Qed.

Lemma tokens_NoDup (cn : string) : NoDup (tokens cn).
Proof. apply dedup_NoDup. Qed.

(** The token set read back from a serialized token set. *)
Lemma tokens_serialize (l : list string) :
  Forall (fun t => token t = true) l -> NoDup l -> tokens (serialize l) = l.
Proof.
  intros Ht Hnd. unfold tokens. rewrite split_serialize by exact Ht.
  apply dedup_id; [exact Hnd|]. intros t _ H. inversion H.
Qed.

(** After [classList.add(t)] the element carries [t]. *)
Lemma contains_add (t cn : string) :
  token t = true -> contains t (add t cn) = true.
Proof.
  intros Ht. unfold contains, add.
  destruct (mem t (tokens cn)) eqn:E.
  - rewrite tokens_serialize; [exact E | apply tokens_token | apply tokens_NoDup].
  - rewrite tokens_serialize.
    + apply mem_spec, elem_of_app. right. apply elem_of_cons. now left.
    + apply Forall_app. split; [apply tokens_token | now repeat constructor].
    + apply NoDup_app. split; [apply tokens_NoDup|]. split.
      * intros u Hu Hin. apply elem_of_cons in Hin as [->|Hin]; [|inversion Hin].
        now apply mem_false in E.
      * apply NoDup_singleton.
Qed.

Lemma filter_tokens (f : string -> bool) (l : list string) :
  Forall (fun t => token t = true) l -> Forall (fun t => token t = true) (List.filter f l).
Proof.
  induction 1 as [|u r Hu Hr IH]; simpl; [constructor|].
  destruct (f u); [constructor; assumption | assumption].
Qed.

Lemma filter_NoDup (f : string -> bool) (l : list string) :
  NoDup l -> NoDup (List.filter f l).
Proof.
  induction 1 as [|u r Hu Hr IH]; simpl; [constructor|].
  destruct (f u); [|exact IH]. constructor; [|exact IH].
  intros H. apply Hu. apply list_elem_of_In in H. apply filter_In in H as [H _].
  now apply list_elem_of_In.
Qed.

(** After [classList.remove(t)] the element does not carry [t]. *)
Lemma contains_remove (t cn : string) : contains t (remove t cn) = false.
Proof.
  unfold contains, remove.
  rewrite tokens_serialize;
    [| apply filter_tokens, tokens_token | apply filter_NoDup, tokens_NoDup].
  apply mem_false. intros H. apply list_elem_of_In in H.
  apply filter_In in H as [_ H]. now rewrite String.eqb_refl in H.
Qed.

End ClassListFacts.

(** ** What a method can change

  Frame properties, for every outcome: a method that raises half-way
  has still only written where its steps write. *)

Module Frames.

Import JS DOM Orient View Session.
Local Open Scope js_scope.

Lemma same_refl {X} (f : World -> X) w : same f w w.
Proof. reflexivity. Qed.

Lemma same_trans {X} (f : World -> X) w1 w2 w3 :
  same f w1 w2 -> same f w2 w3 -> same f w1 w3.
Proof. unfold same. congruence. Qed.

Lemma not_bound_refl w : not_bound w w.
Proof. intros H. exact H. Qed.

Lemma not_bound_trans w1 w2 w3 :
  not_bound w1 w2 -> not_bound w2 w3 -> not_bound w1 w3.
Proof. unfold not_bound. auto. Qed.

Section Steps.

Context (R : World -> World -> Prop).
Hypothesis R_refl : forall w, R w w.
Hypothesis R_trans : forall w1 w2 w3, R w1 w2 -> R w2 w3 -> R w1 w3.

Lemma stays_bind {A B} (m : M A) (k : A -> M B) :
  stays R m -> (forall a, stays R (k a)) -> stays R (bind m k).
Proof.
  intros Hm Hk w. unfold bind. specialize (Hm w).
  destruct (m w) as [[a|e] w1]; simpl in *; [|exact Hm].
  eapply R_trans; [exact Hm | apply Hk].
Qed.

Lemma stays_ret {A} (a : A) : stays R (ret a).
Proof. intros w. apply R_refl. Qed.

Lemma stays_throw {A} e : stays R (@throw A e).
Proof. intros w. apply R_refl. Qed.

Lemma stays_gets {A} (g : World -> A) : stays R (gets g).
Proof. intros w. apply R_refl. Qed.

Lemma stays_modify (g : World -> World) :
  (forall w, R w (g w)) -> stays R (modify g).
Proof. intros H w. apply H. Qed.

Lemma stays_when b m : stays R m -> stays R (when b m).
Proof. intros H. destruct b; [exact H | apply stays_ret]. Qed.

(** Breaks a computation into its steps; what is left are writes. *)
Ltac stays_steps :=
  repeat lazymatch goal with
    | |- stays _ (bind _ _) => apply stays_bind; [|intros ?]
    | |- stays _ (ret _) => apply stays_ret
    | |- stays _ (throw _) => apply stays_throw
    | |- stays _ (gets _) => apply stays_gets
    | |- stays _ (when _ _) => apply stays_when
    | |- stays _ (match ?x with _ => _ end) => destruct x
    | |- stays _ _ =>
        match goal with H : context [stays] |- _ => apply H end
    end.

(** Writes to the element store, the window, the trace, [slideEl] and
    [attachTargetEl] stay within [R]: so does building a slide. *)
Hypothesis R_elements : forall h w, R w (with_elements h w).
Hypothesis R_window : forall h w, R w (with_window h w).
Hypothesis R_emit : forall e w, R w (emit e w).
Hypothesis R_slideEl : forall v w, R w (with_self (set_slideEl v) w).
Hypothesis R_attach : forall v w, R w (with_self (set_attachTargetEl v) w).

Lemma stays_update el g : stays R (update el g).
Proof. apply stays_modify. intros w. apply R_elements. Qed.

Lemma stays_update_slot s e g : stays R (update_slot s e g).
Proof. destruct s; [apply stays_update | apply stays_throw]. Qed.

Lemma stays_appendChild p c : stays R (appendChild p c).
Proof. destruct c; [apply stays_update | apply stays_throw]. Qed.

Lemma stays_console_error msg : stays R (console_error msg).
Proof. apply stays_modify. intros w. apply R_emit. Qed.

Lemma stays_console_log msg : stays R (console_log msg).
Proof. apply stays_modify. intros w. apply R_emit. Qed.

Lemma stays_call_Function text : stays R (call_Function text).
Proof.
  unfold call_Function. stays_steps. apply stays_modify. intros w. apply R_emit.
Qed.

Lemma stays_document_createElement tag : stays R (document_createElement tag).
Proof. intros w. apply R_elements. Qed.

Lemma stays_bind_events el evs : stays R (bind_events el evs).
Proof.
  induction evs as [|[name fn] r IH]; simpl; [apply stays_ret|].
  apply stays_bind; [apply stays_update | intros _; exact IH].
Qed.

Lemma stays_createElement o : stays R (createElement o).
Proof.
  unfold createElement.
  pose proof stays_document_createElement. pose proof stays_bind_events.
  pose proof stays_update.
  stays_steps.
Qed.

Lemma stays_add_extraClasses el cls : stays R (add_extraClasses el cls).
Proof.
  induction cls as [|c r IH]; simpl; [apply stays_ret|].
  apply stays_bind; [apply stays_update | intros _; exact IH].
Qed.

Lemma stays_document_querySelector sel : stays R (document_querySelector sel).
Proof.
  intros w. unfold document_querySelector.
  destruct (querySelector w sel); apply R_refl.
Qed.

Lemma stays_getElAbsolutePosition el : stays R (getElAbsolutePosition el).
Proof. unfold getElAbsolutePosition, element. stays_steps. Qed.

Lemma stays_window_scrollTo x y : stays R (window_scrollTo x y).
Proof.
  apply stays_modify. intros w.
  eapply R_trans; [apply R_window | apply R_emit].
Qed.

Lemma stays_positionSlide : stays R positionSlide.
Proof.
  unfold positionSlide, flowSlide, prop.
  pose proof stays_document_querySelector. pose proof stays_getElAbsolutePosition.
  pose proof stays_update_slot. pose proof stays_console_error.
  pose proof stays_window_scrollTo. pose proof stays_update.
  stays_steps.
  all: try (apply stays_modify; intros ?; apply R_attach).
Qed.

Lemma stays_removeAttachedTargetStyles : stays R removeAttachedTargetStyles.
Proof.
  unfold removeAttachedTargetStyles. pose proof stays_update. stays_steps.
Qed.

Lemma stays_buildMedia s m : stays R (buildMedia s m).
Proof.
  unfold buildMedia.
  pose proof stays_createElement. pose proof stays_document_createElement.
  pose proof stays_appendChild. pose proof stays_update_slot.
  pose proof stays_console_error. pose proof stays_update.
  stays_steps.
Qed.

Lemma stays_buildContent s d : stays R (buildContent s d).
Proof.
  unfold buildContent, buildText, buildButtons, buildWrapper.
  pose proof stays_createElement. pose proof stays_appendChild.
  stays_steps.
Qed.

(** [buildSlide] writes to the element store, [slideEl],
    [attachTargetEl], the window and the trace, and to nothing else. *)
Lemma stays_buildSlide : stays R buildSlide.
Proof.
  unfold buildSlide, flowSlide.
  pose proof stays_createElement. pose proof stays_add_extraClasses.
  pose proof stays_positionSlide. pose proof stays_buildMedia.
  pose proof stays_buildContent.
  stays_steps.
  all: try (apply stays_modify; intros ?; first [apply R_slideEl | apply R_attach]).
Qed.

Lemma stays_run_onEnd : stays R run_onEnd.
Proof.
  unfold run_onEnd, flowSlide, prop. pose proof stays_call_Function. stays_steps.
Qed.

(** Writes to the body, the index, [activeSlideEl] and the flow URL, and
    removing the keyboard listener, stay within [R]: so does every
    navigation method. *)
Hypothesis R_body : forall g w, R w (with_bodyChildren g w).
Hypothesis R_index :
  forall g w, (forall o, exists v, g o = set_activeSlideIndex v o) -> R w (with_self g w).
Hypothesis R_active : forall v w, R w (with_self (set_activeSlideEl v) w).
Hypothesis R_url : forall u w, R w (with_self (set_flowURL u) w).
Hypothesis R_unbind : forall w, R w (set_keydownBound false w).

Lemma stays_body_removeChild c : stays R (body_removeChild c).
Proof.
  unfold body_removeChild. stays_steps.
  apply stays_modify. intros w. apply R_body.
Qed.

Lemma stays_body_appendChild c : stays R (body_appendChild c).
Proof.
  unfold body_appendChild. stays_steps. apply stays_modify. intros w. apply R_body.
Qed.

Lemma stays_set_index g :
  (forall o, exists v, g o = set_activeSlideIndex v o) -> stays R (modify (with_self g)).
Proof. intros H. apply stays_modify. intros w. now apply R_index. Qed.

Lemma stays_set_active v : stays R (modify (with_self (set_activeSlideEl v))).
Proof. apply stays_modify. intros w. apply R_active. Qed.

Lemma stays_insertSlide : stays R insertSlide.
Proof. unfold insertSlide. pose proof stays_body_appendChild. stays_steps. Qed.

Lemma stays_render :
  stays R (el <- buildSlide ;;
           modify (with_self (set_activeSlideEl (Some el))) ;;
           insertSlide).
Proof.
  pose proof stays_buildSlide. pose proof stays_insertSlide.
  pose proof stays_set_active. stays_steps.
Qed.

Lemma stays_stopFlow : stays R stopFlow.
Proof.
  unfold stopFlow.
  pose proof stays_body_removeChild. pose proof stays_removeAttachedTargetStyles.
  pose proof stays_set_active.
  stays_steps.
  - apply stays_set_index. intros o. eexists. reflexivity.
  - apply stays_modify. intros w. apply R_unbind.
Qed.

Lemma stays_startFlow : stays R startFlow.
Proof.
  unfold startFlow. apply stays_bind; [|intros _; apply stays_render].
  apply stays_set_index. intros o. eexists. reflexivity.
Qed.

Lemma stays_nextSlide : stays R nextSlide.
Proof.
  unfold nextSlide.
  pose proof stays_body_removeChild. pose proof stays_removeAttachedTargetStyles.
  pose proof stays_run_onEnd.
  do 4 (apply stays_bind; [stays_steps | intros ?]).
  apply stays_bind; [apply stays_set_index; intros o; eexists; reflexivity | intros ?].
  do 2 (apply stays_bind; [stays_steps | intros ?]).
  match goal with |- stays _ (if ?b then _ else _) => destruct b end.
  - apply stays_bind; [apply stays_set_active | intros _; apply stays_stopFlow].
  - apply stays_render.
Qed.

Lemma stays_prevSlide : stays R prevSlide.
Proof.
  unfold prevSlide.
  pose proof stays_body_removeChild. pose proof stays_removeAttachedTargetStyles.
  pose proof stays_run_onEnd.
  do 2 (apply stays_bind; [stays_steps | intros ?]).
  match goal with |- stays _ (if ?b then _ else _) => destruct b end.
  - do 3 (apply stays_bind; [stays_steps | intros ?]).
    apply stays_bind; [apply stays_set_index; intros o; eexists; reflexivity | intros ?].
    apply stays_render.
  - apply stays_console_log.
Qed.

Lemma stays_jumpToSlide n : stays R (jumpToSlide n).
Proof.
  unfold jumpToSlide.
  pose proof stays_body_removeChild.
  apply stays_bind; [stays_steps | intros ?].
  match goal with |- stays _ (if ?b then _ else _) => destruct b end.
  - apply stays_console_error.
  - do 2 (apply stays_bind; [stays_steps | intros ?]).
    apply stays_bind; [apply stays_set_index; intros o; eexists; reflexivity | intros ?].
    apply stays_render.
Qed.

Lemma stays_setFlowURL u : stays R (setFlowURL u).
Proof.
  unfold setFlowURL. apply stays_bind; [apply stays_stopFlow | intros _].
  apply stays_modify. intros w. apply R_url.
Qed.

Lemma stays_handleKeyDown c : stays R (handleKeyDown c).
Proof.
  unfold handleKeyDown.
  pose proof stays_nextSlide. pose proof stays_prevSlide. pose proof stays_stopFlow.
  repeat match goal with
         | |- stays _ (match ?x with _ => _ end) => destruct x
         end; first [assumption | apply stays_ret].
Qed.

Lemma stays_handler h : stays R (handler h).
Proof.
  destruct h; [apply stays_stopFlow | apply stays_prevSlide | apply stays_nextSlide].
Qed.

Lemma run_handlers_stays hs w : R w (run_handlers hs w).
Proof.
  revert w. induction hs as [|h r IH]; intros w; simpl; [apply R_refl|].
  eapply R_trans; [apply stays_handler | apply IH].
Qed.

(** Every call and event stays within [R], and so does every sequence
    of them. *)
Lemma react_stays i w : R w (react i w).
Proof.
  destruct i; simpl.
  - apply stays_startFlow.
  - apply stays_stopFlow.
  - apply stays_nextSlide.
  - apply stays_prevSlide.
  - apply stays_jumpToSlide.
  - apply stays_setFlowURL.
  - destruct (keydownBound w); [apply stays_handleKeyDown | apply R_refl].
  - destruct (resizeBound w); [apply stays_positionSlide | apply R_refl].
  - apply run_handlers_stays.
Qed.

Lemma session_stays inputs w : R w (session inputs w).
Proof.
  revert w. induction inputs as [|i r IH]; intros w; simpl; [apply R_refl|].
  eapply R_trans; [apply react_stays | apply IH].
Qed.

End Steps.

End Frames.

(** ** The controller *)

Module OrientFacts.

Import JS DOM Orient View Session Frames.
Local Open Scope js_scope.

(** *** Running a computation step by step *)

Lemma bind_step {A B} (m : M A) (k : A -> M B) w a w1 :
  m w = (Ret a, w1) -> bind m k w = k a w1.
Proof. intros H. unfold bind. now rewrite H. Qed.

Lemma bind_throw {A B} (m : M A) (k : A -> M B) w e w1 :
  m w = (Throw e, w1) -> bind m k w = (Throw e, w1).
Proof. intros H. unfold bind. now rewrite H. Qed.

Lemma bind_assoc {A B C} (m : M A) (f : A -> M B) (g : B -> M C) w :
  bind (bind m f) g w = bind m (fun x => bind (f x) g) w.
Proof. unfold bind. destruct (m w) as [[a|e] w1]; reflexivity. Qed.

Lemma bind_ret {A B} (a : A) (k : A -> M B) w : bind (ret a) k w = k a w.
Proof. reflexivity. Qed.

Ltac proj :=
  cbn [self elements bodyChildren window querySelector keydownBound resizeBound trace
       flowURL flowData activeSlideIndex activeSlideEl slideEl attachTargetEl autoScroll
       cssPrefix buttonHtml clickOverlayClosesTour overlay script
       with_self with_elements with_bodyChildren with_window set_keydownBound
       set_resizeBound emit set_flowURL set_flowData set_activeSlideIndex
       set_activeSlideEl set_slideEl set_attachTargetEl W].

(** *** What is kept *)




Lemma kept_current w w' : kept w w' -> currentSlide w' = currentSlide w.
Proof. unfold kept, currentSlide. intros (-> & -> & _). reflexivity. Qed.


(** *** [createElement] *)

Lemma alter_last {A} (f : A -> A) (h : list A) (e : A) :
  alter f (length h) (h ++ [e]) = h ++ [f e].
Proof.
  replace (length h) with (length h + 0)%nat by lia.
  now rewrite alter_app_r.
Qed.

(** A write to the element that was allocated last. *)
Lemma update_fresh f e w :
  update (length (elements w)) f (with_elements (fun h => h ++ [e]) w) =
  (Ret tt, with_elements (fun h => h ++ [f e]) w).
Proof.
  unfold update, modify, with_elements. simpl. now rewrite alter_last.
Qed.

Lemma bind_events_fresh evs e w :
  bind_events (length (elements w)) evs (with_elements (fun h => h ++ [e]) w) =
  (Ret tt, with_elements (fun h => h ++ [listen evs e]) w).
Proof.
  revert e. induction evs as [|[name fn] r IH]; intros e; [reflexivity|].
  simpl bind_events. erewrite bind_step by apply update_fresh.
  rewrite IH. reflexivity.
Qed.

(** [createElement] allocates one element and returns its identity. *)
Lemma createElement_run o w :
  createElement o w =
  (Ret (length (elements w)), with_elements (fun h => h ++ [made o]) w).
Proof.
  unfold createElement, made.
  erewrite bind_step by reflexivity.
  destruct (truthy_string (o_className o)), (truthy_string (o_text o)),
    (truthy_string (o_html o)), (o_events o); simpl when; simpl default;
    repeat (erewrite bind_step
              by first [apply update_fresh | apply bind_events_fresh | reflexivity]);
    reflexivity.
Qed.

(** *** Worlds in the form [W w H L] *)

Lemma W_intro w : w = W w (elements w) [].
Proof. unfold W, with_elements. rewrite app_nil_r. now destruct w. Qed.

Lemma createElement_W o w H L n :
  length H = n ->
  createElement o (W w H L) = (Ret (n + length L)%nat, W w H (L ++ [made o])).
Proof.
  intros <-. rewrite createElement_run. unfold W, with_elements. simpl.
  now rewrite length_app, <- app_assoc.
Qed.

Lemma document_createElement_W tag w H L n :
  length H = n ->
  document_createElement tag (W w H L) =
  (Ret (n + length L)%nat, W w H (L ++ [new_element tag])).
Proof.
  intros <-. unfold document_createElement, W, with_elements. simpl.
  now rewrite length_app, <- app_assoc.
Qed.

Lemma update_new f k w H L n :
  length H = n ->
  update (n + k) f (W w H L) = (Ret tt, W w H (alter f k L)).
Proof.
  intros <-. unfold update, modify, W, with_elements. simpl. now rewrite alter_app_r.
Qed.

Lemma update_old f s w H L :
  (s < length H)%nat ->
  update s f (W w H L) = (Ret tt, W w (alter f s H) L).
Proof.
  intros Hs. unfold update, modify, W, with_elements. simpl. now rewrite alter_app_l.
Qed.

Lemma console_error_W msg w H L :
  console_error msg (W w H L) = (Ret tt, W (emit (ConsoleError msg) w) H L).
Proof. reflexivity. Qed.

Lemma lookup_new w H L n k :
  length H = n -> elements (W w H L) !! (n + k)%nat = L !! k.
Proof.
  intros <-. unfold W. simpl. rewrite lookup_app_r by lia. f_equal. lia.
Qed.

Lemma lookup_old w H L s :
  (s < length H)%nat -> elements (W w H L) !! s = H !! s.
Proof. intros Hs. unfold W. simpl. now rewrite lookup_app_l. Qed.

Ltac len := rewrite ?length_alter; reflexivity.

Ltac fold_self :=
  repeat match goal with
         | |- context [self (W ?w ?H ?L)] => change (self (W w H L)) with (self w)
         end.

(** One step of a computation on a world [W w H L]. *)
Ltac step :=
  first
    [ rewrite bind_assoc
    | rewrite bind_ret
    | erewrite bind_step by (apply createElement_W; len)
    | erewrite bind_step by (apply document_createElement_W; len)
    | erewrite bind_step by (apply update_new; len)
    | erewrite bind_step by (apply update_old; rewrite ?length_alter; assumption)
    | erewrite bind_step by (apply console_error_W)
    | erewrite bind_step by (unfold gets; reflexivity) ];
  cbv beta; simpl length; simpl app; cbn [alter list_alter]; fold_self.

Ltac split_when :=
  match goal with
  | |- context [when ?b _] => destruct b eqn:?; simpl when
  end.

(** *** [positionSlide] *)

Lemma getElAbsolutePosition_run el e w :
  elements w !! el = Some e ->
  getElAbsolutePosition el w = (Ret (absolute (window w) e), w).
Proof.
  intros H. unfold getElAbsolutePosition, element, bind, gets. now rewrite H.
Qed.

Lemma truthy_or_string t : truthy_string (Some t) = true -> or_string (Some t) EmptyString = t.
Proof. destruct t; [discriminate | reflexivity]. Qed.

(** Both branches on the first character call [querySelector] on
    [selector t]; on a selector it answers with what [resolve] says. *)
Lemma positionSlide_lookup w t :
  well_formed w t = true ->
  (if String.eqb (substring 0 1 t) "#" || String.eqb (substring 0 1 t) "."
   then
     el <- document_querySelector t ;;
     modify (with_self (set_attachTargetEl el))
   else
     el <- document_querySelector ("[data-orient-target='" +:+ t +:+ "']") ;;
     modify (with_self (set_attachTargetEl el))) w =
  (Ret tt, with_self (set_attachTargetEl (resolve w t)) w).
Proof.
  unfold well_formed, resolve, selector. intros Hw.
  destruct (String.eqb (substring 0 1 t) "#" || String.eqb (substring 0 1 t) ".");
    unfold bind, document_querySelector, modify;
    destruct (querySelector w _); try discriminate; reflexivity.
Qed.

Lemma resolve_well_formed w t tEl : resolve w t = Some tEl -> well_formed w t = true.
Proof.
  unfold resolve, well_formed. destruct (querySelector w (selector t)); congruence.
Qed.


(** No target: [positionSlide] returns at once. *)
Lemma positionSlide_no_target w d :
  currentSlide w = Some d ->
  truthy_string (Flow.target d) = false ->
  positionSlide w = (Ret tt, w).
Proof.
  intros Hd Ht. unfold positionSlide, flowSlide.
  erewrite bind_step by (unfold gets; rewrite Hd; reflexivity).
  cbv beta. unfold prop.
  rewrite bind_step with (a := Flow.target d) (w1 := w) by reflexivity.
  now rewrite Ht.
Qed.

(** The target does not resolve: a diagnostic, and the slide at (0,0). *)
Lemma positionSlide_unresolved w d t s :
  currentSlide w = Some d ->
  Flow.target d = Some t ->
  truthy_string (Some t) = true ->
  well_formed w t = true ->
  resolve w t = None ->
  slideEl (self w) = Some s ->
  positionSlide w =
  (Ret tt,
   with_elements (alter (style_assign "left" (Px 0)) s)
     (with_elements (alter (style_assign "top" (Px 0)) s)
        (emit (ConsoleError ("[ORIENT] Could not attach slide to element " +:+ t))
           (with_self (set_attachTargetEl None) w)))).
Proof.
  intros Hd Ht Htr Hw Hres Hs.
  unfold positionSlide, flowSlide.
  erewrite bind_step by (unfold gets; rewrite Hd; reflexivity).
  cbv beta. unfold prop. rewrite Ht.
  rewrite bind_step with (a := Some t) (w1 := w) by reflexivity.
  rewrite Htr, (truthy_or_string t Htr). change (negb true) with false. cbv iota.
  erewrite bind_step by (apply positionSlide_lookup; exact Hw).
  rewrite Hres.
  erewrite bind_step by reflexivity. cbv beta.
  erewrite bind_step by reflexivity. cbv beta.
  proj. rewrite Hs. reflexivity.
Qed.

(** The target resolves: highlight, placement next to it, scroll. *)
Lemma positionSlide_resolved w d t tEl te s :
  currentSlide w = Some d ->
  Flow.target d = Some t ->
  truthy_string (Some t) = true ->
  resolve w t = Some tEl ->
  elements w !! tEl = Some te ->
  slideEl (self w) = Some s ->
  let R := absolute (window w) te in
  let W := innerWidth (window w) in
  let y := clamp0 ((top R + height R) - (innerHeight (window w) / 2))%Q in
  let w1 := with_elements (alter (classList_add "orient-target-el") tEl)
              (with_self (set_attachTargetEl (Some tEl)) w) in
  let w2 := if Qgtb (left R + 360)%Q W
            then with_elements (alter (style_assign "right" (Px (W - right R)%Q)) s)
                   (with_elements (alter (classList_add "orient-slide--aligned-right") s) w1)
            else with_elements (alter (style_assign "left" (Px (left R))) s) w1 in
  let w3 := with_elements (alter (style_assign "top" (Px (top R + height R)%Q)) s) w2 in
  positionSlide w =
  (Ret tt,
   if autoScroll (self w)
   then emit (ScrollTo 0 y) (with_window (scroll_to 0 y) w3)
   else w3).
Proof.
  intros Hd Ht Htr Hres Hte Hs. cbv zeta.
  unfold positionSlide, flowSlide.
  erewrite bind_step by (unfold gets; rewrite Hd; reflexivity).
  cbv beta. unfold prop. rewrite Ht.
  rewrite bind_step with (a := Some t) (w1 := w) by reflexivity.
  rewrite Htr, (truthy_or_string t Htr). change (negb true) with false. cbv iota.
  erewrite bind_step by (apply positionSlide_lookup; eapply resolve_well_formed; exact Hres).
  rewrite Hres.
  erewrite bind_step by reflexivity. cbv beta.
  erewrite bind_step by reflexivity. cbv beta.
  proj. rewrite Hs.
  erewrite bind_step by reflexivity. cbv beta.
  erewrite bind_step.
  2:{ apply getElAbsolutePosition_run. proj.
      rewrite list_lookup_alter_eq, Hte. reflexivity. }
  erewrite bind_step by reflexivity. cbv beta. proj.
  replace (absolute (window w) (classList_add "orient-target-el" te))
    with (absolute (window w) te) by reflexivity.
  unfold update_slot, when, clamp0.
  destruct (Qgtb _ _), (autoScroll (self w)) eqn:Ha;
    unfold bind, update, modify, gets, window_scrollTo, ret; proj; rewrite ?Ha; reflexivity.
Qed.

Lemma resolve_live w t tEl :
  resolve w t = Some tEl -> exists te, elements w !! tEl = Some te.
Proof.
  unfold resolve. destruct (querySelector w (selector t)) as [|el|]; try discriminate.
  destruct (Nat.ltb el (length (elements w))) eqn:E; [|discriminate].
  intros [= <-]. apply Nat.ltb_lt in E.
  now apply lookup_lt_is_Some in E.
Qed.



(** *** [buildSlide] *)

Lemma run_W {A} (m : M A) w : m w = m (W w (elements w) []).
Proof. now rewrite <- W_intro. Qed.



Lemma children_listen evs e : children (listen evs e) = children e.
Proof.
  revert e. induction evs as [|[name [h|]] r IH]; intros e; simpl; [reflexivity| |];
    unfold listen in *; simpl; rewrite IH; reflexivity.
Qed.

(** A fresh element has no children. *)
Lemma children_made o : children (made o) = [].
Proof.
  unfold made. rewrite children_listen.
  destruct (truthy_string (o_className o)), (truthy_string (o_text o)),
    (truthy_string (o_html o)); reflexivity.
Qed.








(** *** Navigation *)

Lemma shows_elements w w' el d :
  elements w' = elements w -> shows w' el d = shows w el d.
Proof.
  intros E. unfold shows, is_content, is_text, has_text. rewrite E. reflexivity.
Qed.



Lemma is_child_remove el l : is_child el (remove_child el l) = false.
Proof.
  unfold is_child, remove_child. induction l as [|x r IH]; [reflexivity|].
  simpl. destruct (Nat.eqb el x) eqn:E; simpl; [exact IH | now rewrite E].
Qed.



Lemma body_removeChild_run el w :
  is_child el (bodyChildren w) = true ->
  body_removeChild (Some el) w = (Ret tt, with_bodyChildren (remove_child el) w).
Proof.
  intros H. unfold body_removeChild. erewrite bind_step by reflexivity. now rewrite H.
Qed.

Lemma removeAttachedTargetStyles_run w :
  removeAttachedTargetStyles w =
  (Ret tt,
   match attachTargetEl (self w) with
   | Some el =>
       with_elements (alter (classList_remove "orient-target-el") el)
         (with_elements (alter remove_style el) w)
   | None => w
   end).
Proof.
  unfold removeAttachedTargetStyles. erewrite bind_step by reflexivity.
  destruct (attachTargetEl (self w)); reflexivity.
Qed.




(** No method changes what the script engine does with a text. *)
Ltac script_frame :=
  first [apply same_refl | apply same_trans | reflexivity
        | intros; reflexivity].

Lemma script_render w :
  script (snd ((el <- buildSlide ;;
                modify (with_self (set_activeSlideEl (Some el))) ;;
                insertSlide) w)) = script w.
Proof. apply (stays_render (same script)); script_frame. Qed.



Lemma script_prevSlide w : script (snd (prevSlide w)) = script w.
Proof. apply (stays_prevSlide (same script)); script_frame. Qed.







Lemma index_nat {A} (l : list A) (k : nat) : index l (Some (Z.of_nat k)) = l !! k.
Proof.
  unfold index. destruct (Z.ltb_spec (Z.of_nat k) 0); [lia|]. now rewrite Nat2Z.id.
Qed.




(** *** Start, next, ..., next *)




(** *** What the sibling paths do, and what the media block does not *)

(** [removeAttachedTargetStyles] leaves the attached target without the
    highlight class and without inline style. *)
Lemma removeAttachedTargetStyles_clears w t e :
  attachTargetEl (self w) = Some t ->
  elements w !! t = Some e ->
  exists w',
    removeAttachedTargetStyles w = (Ret tt, w') /\
    highlighted w' t = false /\
    forall name, inline w' t name = None.
Proof.
  intros Ht He. eexists. split; [apply removeAttachedTargetStyles_run|].
  rewrite Ht. unfold highlighted, inline. proj.
  rewrite !list_lookup_alter_eq, He. cbn [fmap option_fmap option_map].
  split.
  - cbn [className classList_remove set_className remove_style set_style].
    apply ClassListFacts.contains_remove.
  - intros name. cbn [style classList_remove set_className remove_style set_style].
    apply lookup_empty.
Qed.

(** A float slide whose target is no selector makes [start()] raise. *)
Lemma malformed_target_raises :
  let w := Demo.loaded [Demo.broken] (Demo.win 1200 0) in
  valid w Demo.broken = false /\
  outcome startFlow w =
    Throw (SyntaxError "Failed to execute 'querySelector' on 'Document': '#' is not a valid selector.").
Proof. vm_compute. split; reflexivity. Qed.


End OrientFacts.

(** ** The subtree [buildSlide] builds *)

Module Rendering.

Import JS DOM Orient View Session Frames OrientFacts.
Local Open Scope js_scope.

(** *** Elements made by [createElement] *)

(** The listeners an [events] object binds: a [null] callback binds none. *)
Lemma listeners_listen evs e :
  listeners (listen evs e) =
  listeners e
  ++ flat_map (fun ev => match snd ev with
                         | Some h => [(fst ev, h)]
                         | None => []
                         end) evs.
Proof.
  revert e. unfold listen.
  induction evs as [|[name [h|]] r IH]; intros e; simpl.
  - now rewrite app_nil_r.
  - rewrite IH. cbn [add_listener listeners set_listeners]. now rewrite <- app_assoc.
  - rewrite IH. reflexivity.
Qed.

Lemma listeners_made o :
  listeners (made o) =
  flat_map (fun ev => match snd ev with
                      | Some h => [(fst ev, h)]
                      | None => []
                      end) (default [] (o_events o)).
Proof.
  unfold made. rewrite listeners_listen.
  destruct (truthy_string (o_className o)), (truthy_string (o_text o)),
    (truthy_string (o_html o)); reflexivity.
Qed.


Lemma className_listen evs e : className (listen evs e) = className e.
Proof.
  revert e. unfold listen.
  induction evs as [|[name [h|]] r IH]; intros e; simpl; [reflexivity| |];
    rewrite IH; reflexivity.
Qed.



Lemma className_made o c r :
  o_className o = Some (String c r) -> className (made o) = String c r.
Proof.
  intros H. unfold made. rewrite className_listen, H.
  cbn [truthy_string or_string].
  destruct (truthy_string (o_text o)), (truthy_string (o_html o)); reflexivity.
Qed.













(** *** The blocks, from their parts *)




(** *** The content block *)





(** *** The media block *)

(** Reading the store after a last write to an old element. *)
Lemma lookup_upd_old f s w H L :
  (s < length H)%nat ->
  elements (with_elements (alter f s) (W w H L)) !! s = f <$> H !! s.
Proof.
  intros Hs. proj. rewrite list_lookup_alter_eq. now rewrite lookup_app_l.
Qed.

Lemma lookup_upd_new f s w H L n k :
  length H = n -> (s < n)%nat ->
  elements (with_elements (alter f s) (W w H L)) !! (n + k)%nat = L !! k.
Proof.
  intros Hn Hs. proj. rewrite list_lookup_alter_ne by lia.
  rewrite lookup_app_r by lia. f_equal. lia.
Qed.





(** *** The slide element *)













(** *** The whole subtree *)



(** The subtree is read off the element store and the options. *)
Section Same_store.

Variables w w' : World.
Hypothesis same_elements : elements w' = elements w.
Hypothesis same_index : activeSlideIndex (self w') = activeSlideIndex (self w).
Hypothesis same_flow : flowData (self w') = flowData (self w).
Hypothesis same_html : buttonHtml (self w') = buttonHtml (self w).
Hypothesis same_prefix : cssPrefix (self w') = cssPrefix (self w).
Hypothesis same_overlay : overlay (self w') = overlay (self w).
Hypothesis same_closes :
  clickOverlayClosesTour (self w') = clickOverlayClosesTour (self w).






End Same_store.


End Rendering.

(** ** Moves of the tour

  What the navigation methods do from a rendered slide, from a slide
  element that left the page, and over calls and events. *)

Module Moves.

Import JS DOM Orient View Session OrientFacts Frames Rendering.
Local Open Scope js_scope.














(** *** Stopping *)

Lemma stopFlow_run w el :
  activeSlideEl (self w) = Some el ->
  is_child el (bodyChildren w) = true ->
  stopFlow w = (Ret tt, stopped el w).
Proof.
  intros Ha Hc. unfold stopFlow.
  erewrite bind_step by (unfold gets; rewrite Ha; reflexivity). cbv beta.
  cbn [truthy_ref when]. rewrite ?bind_assoc.
  erewrite bind_step by (apply body_removeChild_run; exact Hc).
  erewrite bind_step by apply removeAttachedTargetStyles_run.
  unfold stopped. proj. destruct (attachTargetEl (self w)); reflexivity.
Qed.

Lemma stopFlow_idle w :
  activeSlideEl (self w) = None ->
  stopFlow w =
  (Ret tt,
   set_keydownBound false
     (with_self (set_activeSlideEl None) (with_self (set_activeSlideIndex None) w))).
Proof.
  intros Ha. unfold stopFlow.
  erewrite bind_step by (unfold gets; rewrite Ha; reflexivity). reflexivity.
Qed.

(** *** A slide element that is not on the page *)

Lemma body_removeChild_detached el w :
  is_child el (bodyChildren w) = false ->
  body_removeChild (Some el) w = (Throw not_a_child, w).
Proof. intros Hc. unfold body_removeChild, bind, gets. now rewrite Hc. Qed.

Lemma stopFlow_detached w el :
  activeSlideEl (self w) = Some el ->
  is_child el (bodyChildren w) = false ->
  stopFlow w = (Throw not_a_child, w).
Proof.
  intros Ha Hc. unfold stopFlow.
  erewrite bind_step by (unfold gets; rewrite Ha; reflexivity). cbv beta.
  cbn [truthy_ref when]. rewrite ?bind_assoc.
  erewrite bind_throw by (apply body_removeChild_detached; exact Hc). reflexivity.
Qed.

Lemma nextSlide_detached w el :
  activeSlideEl (self w) = Some el ->
  is_child el (bodyChildren w) = false ->
  nextSlide w = (Throw not_a_child, w).
Proof.
  intros Ha Hc. unfold nextSlide.
  erewrite bind_step by (unfold gets; rewrite Ha; reflexivity). cbv beta.
  erewrite bind_throw by (apply body_removeChild_detached; exact Hc). reflexivity.
Qed.

Lemma jumpToSlide_detached w el n :
  1 <= n <= Z.of_nat (length (flowData (self w))) ->
  activeSlideEl (self w) = Some el ->
  is_child el (bodyChildren w) = false ->
  jumpToSlide n w = (Throw not_a_child, w).
Proof.
  intros Hn Ha Hc. unfold jumpToSlide.
  erewrite bind_step by reflexivity. cbv beta.
  destruct (Z.ltb_spec n 1); [lia|].
  destruct (Z.gtb_spec n (Z.of_nat (length (flowData (self w))))); [lia|].
  cbn [orb].
  erewrite bind_step by (unfold gets; rewrite Ha; reflexivity). cbv beta.
  erewrite bind_throw by (apply body_removeChild_detached; exact Hc). reflexivity.
Qed.

(** *** A slide that does not build *)



(** *** The active element is on the page *)



Lemma coherent_elim w el :
  coherent w = true ->
  activeSlideEl (self w) = Some el ->
  is_child el (bodyChildren w) = true /\
  exists k : nat, activeSlideIndex (self w) = Some (Z.of_nat k) /\
                  (k < length (flowData (self w)))%nat.
Proof.
  unfold coherent. intros H Ha. rewrite Ha in H.
  apply andb_true_iff in H as [Hc H]. split; [exact Hc|].
  destruct (activeSlideIndex (self w)) as [i|]; [|discriminate].
  apply andb_true_iff in H as [H0 Hn].
  apply Z.leb_le in H0. apply Z.ltb_lt in Hn.
  exists (Z.to_nat i). split; [f_equal; lia | lia].
Qed.














(** *** Calls and events *)

Lemma setting_index g w :
  (forall o, exists v, g o = set_activeSlideIndex v o) ->
  same setting w (with_self g w).
Proof.
  intros Hg. unfold same, setting. proj.
  destruct (Hg (self w)) as [v ->]. reflexivity.
Qed.












(** *** Children of the body *)



(** *** The class attribute of a target *)

Lemma filter_absent (t : string) (l : list string) :
  t ∉ l -> List.filter (fun u => negb (String.eqb t u)) l = l.
Proof.
  induction l as [|x r IH]; intros Hn; [reflexivity|]. simpl.
  apply not_elem_of_cons in Hn as [Hx Hr].
  destruct (String.eqb_spec t x); [contradiction|]. simpl. now rewrite IH.
Qed.

(** Adding a class token and removing it again gives the token set back. *)
Lemma tokens_remove_add (t cn : string) :
  ClassList.token t = true ->
  ClassList.contains t cn = false ->
  ClassList.tokens (ClassList.remove t (ClassList.add t cn)) = ClassList.tokens cn.
Proof.
  intros Ht Hc. unfold ClassList.contains in Hc.
  unfold ClassList.remove, ClassList.add. rewrite Hc.
  apply ClassListFacts.mem_false in Hc.
  assert (Hall : Forall (fun u => ClassList.token u = true) (ClassList.tokens cn ++ [t])).
  { apply Forall_app. split; [apply ClassListFacts.tokens_token | now constructor]. }
  assert (Hnd : NoDup (ClassList.tokens cn ++ [t])).
  { apply NoDup_app. split; [apply ClassListFacts.tokens_NoDup|].
    split; [|apply NoDup_singleton].
    intros x Hx Hx'. apply elem_of_cons in Hx' as [->|Hx']; [contradiction | inversion Hx']. }
  rewrite (ClassListFacts.tokens_serialize _ Hall Hnd).
  rewrite List.filter_app, (filter_absent t _ Hc). simpl.
  rewrite String.eqb_refl. simpl. rewrite app_nil_r.
  apply ClassListFacts.tokens_serialize;
    [apply ClassListFacts.tokens_token | apply ClassListFacts.tokens_NoDup].
Qed.


(** *** Class attributes put together with a space *)

Lemma split_sep (cur a b : string) :
  ClassList.split cur (a +:+ String " "%char b) =
  ClassList.split cur a ++ ClassList.split EmptyString b.
Proof.
  revert cur. induction a as [|c r IH]; intros cur.
  - rewrite ClassListFacts.append_nil. reflexivity.
  - rewrite ClassListFacts.append_cons. simpl ClassList.split.
    destruct (ClassList.is_ws c).
    + rewrite IH. now rewrite app_assoc.
    + apply IH.
Qed.

Lemma elem_of_dedup (t : string) (l seen : list string) :
  t ∈ l -> t ∉ seen -> t ∈ ClassList.dedup seen l.
Proof.
  revert seen. induction l as [|x r IH]; intros seen Hl Hs; [inversion Hl|].
  simpl. destruct (ClassList.mem x seen) eqn:E.
  - apply ClassListFacts.mem_spec in E.
    apply elem_of_cons in Hl as [->|Hl]; [contradiction|]. now apply IH.
  - apply elem_of_cons in Hl as [->|Hl]; [apply elem_of_cons; now left|].
    destruct (String.eqb_spec t x) as [->|Hne]; [apply elem_of_cons; now left|].
    apply elem_of_cons. right. apply IH; [exact Hl|].
    intros Hx. apply elem_of_cons in Hx as [Hx|Hx]; [contradiction | contradiction].
Qed.

Lemma contains_spec (t cn : string) :
  ClassList.contains t cn = true <-> t ∈ ClassList.split EmptyString cn.
Proof.
  unfold ClassList.contains, ClassList.tokens. rewrite ClassListFacts.mem_spec. split.
  - intros H. now apply ClassListFacts.dedup_sub in H.
  - intros H. apply elem_of_dedup; [exact H | intros Hx; inversion Hx].
Qed.

(** The tokens of two class attributes joined by a space are the tokens
    of the one and of the other. *)
Lemma contains_sep (t a b : string) :
  ClassList.contains t (a +:+ " " +:+ b) =
  ClassList.contains t a || ClassList.contains t b.
Proof.
  apply eq_true_iff_eq.
  rewrite orb_true_iff, !contains_spec.
  replace (a +:+ " " +:+ b) with (a +:+ String " "%char b)
    by (now rewrite ClassListFacts.append_cons, ClassListFacts.append_nil).
  rewrite split_sep, elem_of_app. reflexivity.
Qed.

End Moves.

(** * Properties of the specification, one by one *)

Module Claims.

Import JS DOM Orient View Session Frames OrientFacts Rendering Moves.
Local Open Scope js_scope.







(** C10. [jump(n)] with n in range, called while no slide is rendered
    (before [start()], or after [stop()]), hands the empty
    [activeSlideEl] to [removeChild], which raises: the in-range branch
    of [jump] needs a rendered slide. *)
Theorem jumpToSlide_needs_rendered_slide w n :
  1 <= n <= Z.of_nat (length (flowData (self w))) ->
  (activeSlideEl (self w) = None ->
   jumpToSlide n w =
   (Throw (TypeError "Failed to execute 'removeChild' on 'Node': parameter 1 is not of type 'Node'."),
    w)) /\
  (attached w = true ->
   outcome (stopFlow ;; jumpToSlide n) w =
   Throw (TypeError "Failed to execute 'removeChild' on 'Node': parameter 1 is not of type 'Node'.")).
Proof.
  intros Hn.
  assert (G : forall w0, flowData (self w0) = flowData (self w) ->
              activeSlideEl (self w0) = None ->
              jumpToSlide n w0 =
              (Throw (TypeError "Failed to execute 'removeChild' on 'Node': parameter 1 is not of type 'Node'."), w0)).
  { intros w0 Hf Ha. unfold jumpToSlide. erewrite bind_step by reflexivity. cbv beta.
    rewrite Hf.
    replace (Z.ltb n 1 || Z.gtb n (Z.of_nat (length (flowData (self w))))) with false.
    2:{ symmetry. apply orb_false_iff. split; [apply Z.ltb_ge; lia|].
        destruct (Z.gtb_spec n (Z.of_nat (length (flowData (self w))))); [lia | reflexivity]. }
    erewrite bind_step by (unfold gets; rewrite Ha; reflexivity). reflexivity. }
  split; [apply G; reflexivity|].
  intros Hat. unfold outcome, attached in *.
  unfold stopFlow. rewrite ?bind_assoc.
  erewrite bind_step by reflexivity. cbv beta.
  destruct (activeSlideEl (self w)) as [el|] eqn:Ha; cbn [truthy_ref when].
  - rewrite ?bind_assoc.
    erewrite bind_step by (apply body_removeChild_run; exact Hat). cbv beta.
    rewrite ?bind_assoc.
    rewrite (bind_step _ _ _ _ _ (removeAttachedTargetStyles_run _)). cbv beta.
    rewrite ?bind_ret, ?bind_assoc.
    repeat (erewrite bind_step by reflexivity; cbv beta).
    rewrite G; [reflexivity | | reflexivity].
    proj. destruct (attachTargetEl (self w)); reflexivity.
  - rewrite ?bind_ret, ?bind_assoc.
    repeat (erewrite bind_step by reflexivity; cbv beta).
    rewrite G; reflexivity.
Qed.


Lemma Qgtb_lt a b : Qgtb a b = true <-> (b < a)%Q.
Proof.
  unfold Qgtb. rewrite negb_true_iff. split.
  - intros H. apply Qnot_le_lt. intros Hle. apply Qle_bool_iff in Hle. congruence.
  - intros H. destruct (Qle_bool a b) eqn:E; [|reflexivity].
    apply Qle_bool_iff in E. exfalso. eapply Qlt_not_le; eassumption.
Qed.

Lemma not_empty_truthy t : t <> EmptyString -> truthy_string (Some t) = true.
Proof. destruct t; [congruence | reflexivity]. Qed.

(** C7. For a resolved float target with absolute box R and viewport
    width W, [positionSlide] puts the slide at top = R.top + R.height;
    if R.left + 360 > W it sets right = W - R.right and flags the slide
    with the right-aligned class, otherwise it sets left = R.left and
    leaves right alone. For the box {left:100, top:50, width:80,
    height:20}: with W = 1200 the slide gets left = 100, top = 70; with
    W = 400 it gets right = 220 and the right-aligned class. *)
Theorem positionSlide_alignment :
  (forall w d t tEl te s se,
      currentSlide w = Some d ->
      Flow.target d = Some t ->
      t <> EmptyString ->
      resolve w t = Some tEl ->
      elements w !! tEl = Some te ->
      slideEl (self w) = Some s ->
      elements w !! s = Some se ->
      let R := absolute (window w) te in
      let W := innerWidth (window w) in
      exists w' se',
        positionSlide w = (Ret tt, w') /\
        elements w' !! s = Some se' /\
        style se' !! "top" = Some (Px (top R + height R)%Q) /\
        ((W < left R + 360)%Q ->
         style se' !! "right" = Some (Px (W - right R)%Q) /\
         ClassList.contains "orient-slide--aligned-right" (className se') = true) /\
        (~ (W < left R + 360)%Q ->
         style se' !! "left" = Some (Px (left R)) /\
         style se' !! "right" = style se !! "right")) /\
  (let w := exec startFlow (Demo.loaded [Demo.anchored] (Demo.win 1200 0)) in
   slideEl (self w) = Some 1%nat /\
   inline w 1%nat "left" = Some (Px 100) /\
   inline w 1%nat "top" = Some (Px 70) /\
   inline w 1%nat "right" = None) /\
  (let w := exec startFlow (Demo.loaded [Demo.anchored] (Demo.win 400 0)) in
   slideEl (self w) = Some 1%nat /\
   inline w 1%nat "right" = Some (Px 220) /\
   inline w 1%nat "top" = Some (Px 70) /\
   inline w 1%nat "left" = None /\
   match elements w !! 1%nat with
   | Some e => ClassList.contains "orient-slide--aligned-right" (className e) = true
   | None => False
   end).
Proof.
  split; [|split; vm_compute; repeat split].
  intros w d t tEl te s se Hd Ht Hne Hres Hte Hs Hse R W.
  pose proof (positionSlide_resolved w d t tEl te s Hd Ht (not_empty_truthy t Hne)
                Hres Hte Hs) as Hrun.
  cbv zeta in Hrun. fold R W in Hrun.
  assert (H1 : exists se1, alter (classList_add "orient-target-el") tEl (elements w) !! s = Some se1
                           /\ style se1 = style se).
  { rewrite list_lookup_alter. case_decide as E.
    - subst tEl. rewrite Hse. eexists. split; reflexivity.
    - exists se. split; [exact Hse | reflexivity]. }
  destruct H1 as (se1 & Hse1 & Hst1).
  destruct (Qgtb (left R + 360)%Q W) eqn:Eg.
  - eexists. exists (style_assign "top" (Px (top R + height R)%Q)
              (style_assign "right" (Px (W - right R)%Q)
                 (classList_add "orient-slide--aligned-right" se1))).
    split; [exact Hrun|].
    split.
    { destruct (autoScroll (self w)); proj;
        rewrite !list_lookup_alter_eq, Hse1; reflexivity. }
    split; [apply lookup_insert_eq|].
    split.
    + intros _. split.
      * cbn [style style_assign set_style]. rewrite lookup_insert_ne by discriminate.
        apply lookup_insert_eq.
      * cbn [className style_assign set_style classList_add set_className].
        now apply ClassListFacts.contains_add.
    + intros Hn. exfalso. apply Hn. now apply Qgtb_lt.
  - eexists. exists (style_assign "top" (Px (top R + height R)%Q)
              (style_assign "left" (Px (left R)) se1)).
    split; [exact Hrun|].
    split.
    { destruct (autoScroll (self w)); proj;
        rewrite !list_lookup_alter_eq, Hse1; reflexivity. }
    split; [apply lookup_insert_eq|].
    split.
    + intros Hlt. apply Qgtb_lt in Hlt. congruence.
    + intros _. cbn [style style_assign set_style]. split.
      * rewrite lookup_insert_ne by discriminate. apply lookup_insert_eq.
      * rewrite !lookup_insert_ne by discriminate. now rewrite Hst1.
Qed.


Lemma clamp0_max q : (clamp0 q == Qmax 0 q)%Q.
Proof.
  unfold clamp0, Qltb. destruct (Qle_bool 0 q) eqn:E; simpl.
  - apply Qle_bool_iff in E. symmetry. now apply Q.max_r.
  - symmetry. apply Q.max_l. apply Qlt_le_weak, Qnot_le_lt.
    intros H. apply Qle_bool_iff in H. congruence.
Qed.

(** C9, as the code has it. For a resolved float target with absolute
    top T and height H and viewport height V, with auto-scroll enabled,
    [positionSlide] calls [window.scrollTo(0, max(0, (T + H) - V/2))]:
    it asks for that vertical offset and for the horizontal offset 0,
    and the page is where the browser settles for this request. *)
Theorem positionSlide_scrolls w d t tEl te s :
  currentSlide w = Some d ->
  Flow.target d = Some t ->
  t <> EmptyString ->
  resolve w t = Some tEl ->
  elements w !! tEl = Some te ->
  slideEl (self w) = Some s ->
  autoScroll (self w) = true ->
  let R := absolute (window w) te in
  let V := innerHeight (window w) in
  exists w' y,
    positionSlide w = (Ret tt, w') /\
    (y == Qmax 0 ((top R + height R) - V / 2))%Q /\
    trace w' = trace w ++ [ScrollTo 0 y] /\
    window w' = scroll_to 0 y (window w).
Proof.
  intros Hd Ht Hne Hres Hte Hs Ha R V.
  pose proof (positionSlide_resolved w d t tEl te s Hd Ht (not_empty_truthy t Hne)
                Hres Hte Hs) as Hrun.
  cbv zeta in Hrun. rewrite Ha in Hrun. fold R V in Hrun.
  eexists. exists (clamp0 ((top R + height R) - V / 2)%Q).
  split; [exact Hrun|]. split; [apply clamp0_max|].
  destruct (Qgtb _ _); repeat split.
Qed.

(** C9, counterexample. On a page scrolled sideways by 50, rendering a
    float slide with auto-scroll enabled scrolls the page back to
    horizontal offset 0. *)
Lemma autoscroll_resets_horizontal_offset :
  let w0 := Demo.loaded [Demo.anchored] (Demo.win 1200 50) in
  let w := exec startFlow w0 in
  autoScroll (self w0) = true /\
  resolve w0 "#a" = Some 0%nat /\
  pageXOffset (window w0) = 50%Q /\
  outcome startFlow w0 = Ret tt /\
  trace w = [ScrollTo 0 0] /\
  pageXOffset (window w) = 0%Q /\
  ~ (pageXOffset (window w) == pageXOffset (window w0))%Q.
Proof. vm_compute. repeat split. discriminate. Qed.

(** C8, as the code has it. [setFlowURL(newURL)] stops the current tour
    and stores the new URL; the loaded slide list stays as it was. *)
Theorem setFlowURL_keeps_flow w newURL :
  attached w = true ->
  exists w',
    setFlowURL newURL w = (Ret tt, w') /\
    flowURL (self w') = newURL /\
    flowData (self w') = flowData (self w) /\
    idle w' = true /\
    (forall el, activeSlideEl (self w) = Some el ->
                is_child el (bodyChildren w') = false).
Proof.
  intros Hat. unfold attached in Hat.
  unfold setFlowURL, stopFlow. rewrite ?bind_assoc.
  erewrite bind_step by reflexivity. cbv beta.
  destruct (activeSlideEl (self w)) as [el|] eqn:Ha; cbn [truthy_ref when].
  - rewrite ?bind_assoc.
    erewrite bind_step by (apply body_removeChild_run; exact Hat). cbv beta.
    rewrite ?bind_assoc.
    erewrite bind_step by apply removeAttachedTargetStyles_run. cbv beta.
    rewrite ?bind_ret, ?bind_assoc.
    repeat (erewrite bind_step by reflexivity; cbv beta).
    eexists. split; [reflexivity|]. proj.
    destruct (attachTargetEl (self w)); proj; repeat split;
      intros el' [= <-]; apply is_child_remove.
  - rewrite ?bind_ret, ?bind_assoc.
    repeat (erewrite bind_step by reflexivity; cbv beta).
    eexists. split; [reflexivity|]. proj. repeat split. intros el' [=].
Qed.

(** C8, counterexample. After [setFlowURL] on a running tour, the slide
    list is still the one that was loaded. *)
Lemma setFlowURL_discards_nothing :
  let w := exec startFlow (Demo.loaded [Demo.anchored; Demo.plain] (Demo.win 1200 0)) in
  let w' := exec (setFlowURL "other.json") w in
  outcome (setFlowURL "other.json") w = Ret tt /\
  flowURL (self w') = "other.json"%string /\
  flowData (self w) = [Demo.anchored; Demo.plain] /\
  flowData (self w') = [Demo.anchored; Demo.plain].
Proof. vm_compute. repeat split. Qed.

(** C3, as the code has it. For an active float slide whose target is
    absent or empty, [positionSlide] returns at once, without raising
    and without touching anything: no position is set on the slide, no
    diagnostic is logged. *)
Theorem positionSlide_without_target w d :
  currentSlide w = Some d ->
  Flow.style d = "float"%string ->
  Flow.target d = None \/ Flow.target d = Some EmptyString ->
  positionSlide w = (Ret tt, w).
Proof.
  intros Hd _ Ht. apply positionSlide_no_target with (d := d); [exact Hd|].
  destruct Ht as [-> | ->]; reflexivity.
Qed.

(** C3, counterexample. A float slide without a target is rendered with
    no inline position at all: neither top nor left is 0px. *)
Lemma slide_without_target_not_pinned :
  let w0 := Demo.loaded [Demo.loose] (Demo.win 1200 0) in
  let w := exec startFlow w0 in
  Flow.style Demo.loose = "float"%string /\
  Flow.target Demo.loose = None /\
  outcome startFlow w0 = Ret tt /\
  slideEl (self w) = Some 1%nat /\
  inline w 1%nat "top" = None /\
  inline w 1%nat "left" = None /\
  inline w 1%nat "top" <> Some (Px 0) /\
  trace w = [].
Proof. vm_compute. repeat split; discriminate. Qed.

(** C2, on the failing input. With a float slide attached to the heading
    rendered, [jump(2)] to the modal slide succeeds and the heading
    still carries the highlight class, whereas [next()] from the same
    state removes it. *)
Theorem jump_leaves_target_highlighted :
  let w := exec startFlow (Demo.loaded [Demo.anchored; Demo.plain] (Demo.win 1200 0)) in
  attachTargetEl (self w) = Some 0%nat /\
  highlighted w 0%nat = true /\
  outcome (jumpToSlide 2) w = Ret tt /\
  activeSlideIndex (self (exec (jumpToSlide 2) w)) = Some 1 /\
  highlighted (exec (jumpToSlide 2) w) 0%nat = true /\
  outcome nextSlide w = Ret tt /\
  highlighted (exec nextSlide w) 0%nat = false.
Proof. vm_compute. repeat split. Qed.

(** C4, on the failing input. Rendering a slide whose media type is
    unknown logs the error and then raises on [slideMediaEl.src = ...];
    with neither type nor url it logs both errors and raises on
    [appendChild]. No slide is rendered in either case. A video without
    url, by contrast, logs the error and is rendered with a media
    element that has no source. *)
Theorem unknown_media_type_raises :
  let w1 := Demo.loaded [Demo.audio] (Demo.win 1200 0) in
  let w2 := Demo.loaded [Demo.untyped] (Demo.win 1200 0) in
  let w3 := Demo.loaded [Demo.silent] (Demo.win 1200 0) in
  (outcome startFlow w1 = Throw (cannot_set "src") /\
   trace (exec startFlow w1) = [ConsoleError "[ORIENT] Media type should be 'video' or 'image'"] /\
   rendered (exec startFlow w1) = false) /\
  (outcome startFlow w2 =
     Throw (TypeError "Failed to execute 'appendChild' on 'Node': parameter 1 is not of type 'Node'.") /\
   trace (exec startFlow w2) =
     [ConsoleError "[ORIENT] Media type should be 'video' or 'image'";
      ConsoleError "[ORIENT] URL not specified for the media element on slide 1"] /\
   rendered (exec startFlow w2) = false) /\
  (outcome startFlow w3 = Ret tt /\
   trace (exec startFlow w3) =
     [ConsoleError "[ORIENT] URL not specified for the media element on slide 1"] /\
   rendered (exec startFlow w3) = true /\
   (tagName <$> elements (exec startFlow w3) !! 3%nat) = Some "video"%string /\
   (src <$> elements (exec startFlow w3) !! 3%nat) = Some None).
Proof. vm_compute. repeat split. Qed.


(** *** Witnesses: the statements above at a concrete tour *)




(** C10 at the demo tour, loaded and not started. *)
Lemma jumpToSlide_needs_rendered_slide_witness :
  let w := Demo.loaded [Demo.anchored; Demo.plain] (Demo.win 1200 0) in
  (1 <= 1 <= Z.of_nat (length (flowData (self w)))) /\
  activeSlideEl (self w) = None /\
  attached w = true /\
  jumpToSlide 1 w =
    (Throw (TypeError "Failed to execute 'removeChild' on 'Node': parameter 1 is not of type 'Node'."),
     w) /\
  outcome (stopFlow ;; jumpToSlide 1) w =
    Throw (TypeError "Failed to execute 'removeChild' on 'Node': parameter 1 is not of type 'Node'.").
Proof.
  cbv zeta.
  assert (H : 1 <= 1 <= Z.of_nat (length (flowData (self
                (Demo.loaded [Demo.anchored; Demo.plain] (Demo.win 1200 0))))))
    by (vm_compute; split; discriminate).
  split; [exact H|]. split; [reflexivity|]. split; [reflexivity|].
  split.
  - apply (proj1 (jumpToSlide_needs_rendered_slide _ 1 H)). reflexivity.
  - apply (proj2 (jumpToSlide_needs_rendered_slide _ 1 H)). reflexivity.
Defined.

(** C7 at the demo tour in a window 400 wide, on a resize. *)
Lemma positionSlide_alignment_witness :
  let w := exec startFlow (Demo.loaded [Demo.anchored] (Demo.win 400 0)) in
  let te := default Demo.heading (elements w !! 0%nat) in
  let se := default Demo.heading (elements w !! 1%nat) in
  currentSlide w = Some Demo.anchored /\
  Flow.target Demo.anchored = Some "#a"%string /\
  "#a"%string <> EmptyString /\
  resolve w "#a" = Some 0%nat /\
  elements w !! 0%nat = Some te /\
  slideEl (self w) = Some 1%nat /\
  elements w !! 1%nat = Some se /\
  exists w' se',
    positionSlide w = (Ret tt, w') /\
    elements w' !! 1%nat = Some se' /\
    style se' !! "top" = Some (Px (top (absolute (window w) te) + height (absolute (window w) te))%Q) /\
    ((innerWidth (window w) < left (absolute (window w) te) + 360)%Q ->
     style se' !! "right" =
       Some (Px (innerWidth (window w) - right (absolute (window w) te))%Q) /\
     ClassList.contains "orient-slide--aligned-right" (className se') = true) /\
    (~ (innerWidth (window w) < left (absolute (window w) te) + 360)%Q ->
     style se' !! "left" = Some (Px (left (absolute (window w) te))) /\
     style se' !! "right" = style se !! "right").
Proof.
  cbv zeta.
  split; [reflexivity|]. split; [reflexivity|]. split; [discriminate|].
  split; [reflexivity|]. split; [reflexivity|]. split; [reflexivity|].
  split; [reflexivity|].
  apply (proj1 positionSlide_alignment _ Demo.anchored "#a"%string 0%nat);
    [reflexivity | reflexivity | discriminate | reflexivity | reflexivity
    | reflexivity | reflexivity].
Defined.

(** C9 at the demo tour in a low window, on a page scrolled sideways,
    on a resize: the request is for the offset 39/2. *)
Lemma positionSlide_scrolls_witness :
  let w := exec startFlow (Demo.loaded [Demo.anchored] (Demo.low 1200 50)) in
  let te := default Demo.heading (elements w !! 0%nat) in
  currentSlide w = Some Demo.anchored /\
  Flow.target Demo.anchored = Some "#a"%string /\
  "#a"%string <> EmptyString /\
  resolve w "#a" = Some 0%nat /\
  elements w !! 0%nat = Some te /\
  slideEl (self w) = Some 1%nat /\
  autoScroll (self w) = true /\
  exists w' y,
    positionSlide w = (Ret tt, w') /\
    (y == 39 # 2)%Q /\
    trace w' = trace w ++ [ScrollTo 0 y] /\
    window w' = scroll_to 0 y (window w).
Proof.
  cbv zeta.
  split; [reflexivity|]. split; [reflexivity|]. split; [discriminate|].
  split; [reflexivity|]. split; [reflexivity|]. split; [reflexivity|].
  split; [reflexivity|].
  destruct (positionSlide_scrolls
              (exec startFlow (Demo.loaded [Demo.anchored] (Demo.low 1200 50)))
              Demo.anchored "#a"%string 0%nat
              (default Demo.heading
                 (elements (exec startFlow
                              (Demo.loaded [Demo.anchored] (Demo.low 1200 50))) !! 0%nat))
              1%nat)
    as (w' & y & R & Hy & T & Wn);
    [reflexivity | reflexivity | discriminate | reflexivity | reflexivity
    | reflexivity | reflexivity | ].
  exists w', y. split; [exact R|]. split; [|split; [exact T | exact Wn]].
  rewrite Hy. vm_compute. reflexivity.
Defined.

(** C8 at the running demo tour. *)
Lemma setFlowURL_keeps_flow_witness :
  let w := exec startFlow (Demo.loaded [Demo.anchored; Demo.plain] (Demo.win 1200 0)) in
  attached w = true /\
  exists w',
    setFlowURL "other.json" w = (Ret tt, w') /\
    flowURL (self w') = "other.json"%string /\
    flowData (self w') = flowData (self w) /\
    idle w' = true /\
    (forall el, activeSlideEl (self w) = Some el ->
                is_child el (bodyChildren w') = false).
Proof.
  cbv zeta. split; [reflexivity|].
  apply setFlowURL_keeps_flow. reflexivity.
Defined.

(** C3 at a float slide without target, on a resize. *)
Lemma positionSlide_without_target_witness :
  let w := exec startFlow (Demo.loaded [Demo.loose] (Demo.win 1200 0)) in
  currentSlide w = Some Demo.loose /\
  Flow.style Demo.loose = "float"%string /\
  (Flow.target Demo.loose = None \/ Flow.target Demo.loose = Some EmptyString) /\
  positionSlide w = (Ret tt, w).
Proof.
  cbv zeta. split; [reflexivity|]. split; [reflexivity|].
  split; [left; reflexivity|].
  apply (positionSlide_without_target _ Demo.loose);
    [reflexivity | reflexivity | left; reflexivity].
Defined.

End Claims.

(** ** Further properties of the controller

  What the code does beyond the sentences above: going back, stopping,
  a slide element that left the page, a slide that does not build. *)

Module Behaviour.

Import JS DOM Orient View Session OrientFacts Frames Rendering Moves.
Local Open Scope js_scope.



(** X3. [stopFlow] on a rendered slide ends the tour and nothing else:
    it returns, the controller is idle, the slide wrapper has left the
    body, the keyboard listener is removed and the resize listener is
    not, the flow and its URL stay, and nothing is written to the
    outside: no [onEnd] script is run. The target of the slide, if there
    is one, loses the highlight class and its whole inline style. *)
Theorem stopFlow_ends_tour w el :
  activeSlideEl (self w) = Some el ->
  is_child el (bodyChildren w) = true ->
  exists w',
    stopFlow w = (Ret tt, w') /\
    idle w' = true /\
    bodyChildren w' = remove_child el (bodyChildren w) /\
    is_child el (bodyChildren w') = false /\
    keydownBound w' = false /\
    resizeBound w' = resizeBound w /\
    flowData (self w') = flowData (self w) /\
    flowURL (self w') = flowURL (self w) /\
    trace w' = trace w /\
    window w' = window w /\
    forall t e, attachTargetEl (self w) = Some t -> elements w !! t = Some e ->
                highlighted w' t = false /\ forall name, inline w' t name = None.
Proof.
  intros Ha Hc. exists (stopped el w).
  split; [apply stopFlow_run; assumption|].
  unfold stopped, idle.
  destruct (attachTargetEl (self w)) as [t0|] eqn:Ht; proj;
    (repeat (split; [first [reflexivity | apply is_child_remove]|])).
  - intros t e [= <-] He.
    destruct (removeAttachedTargetStyles_clears w t0 e Ht He) as (w' & R & Hh & Hi).
    rewrite removeAttachedTargetStyles_run, Ht in R. injection R as <-.
    split; [exact Hh | exact Hi].
  - intros t e [=].
Qed.

(** X4. A slide element that is no longer on the page blocks the tour:
    when [activeSlideEl] is an element that is not a child of the body,
    [stopFlow], [nextSlide] and every in-range [jumpToSlide] raise the
    [NotFoundError] of [removeChild] and change nothing, so the tour
    neither ends nor moves. *)
Theorem detached_slide_blocks w el n :
  activeSlideEl (self w) = Some el ->
  is_child el (bodyChildren w) = false ->
  1 <= n <= Z.of_nat (length (flowData (self w))) ->
  stopFlow w = (Throw not_a_child, w) /\
  nextSlide w = (Throw not_a_child, w) /\
  jumpToSlide n w = (Throw not_a_child, w).
Proof.
  intros Ha Hc Hn. split; [|split].
  - eapply stopFlow_detached; eassumption.
  - eapply nextSlide_detached; eassumption.
  - eapply jumpToSlide_detached; eassumption.
Qed.



(** X6. Navigation reads the flow and the options and never writes
    them: after any sequence of calls ([start], [stop], [next],
    [previous], [jump], [setFlowURL]), key presses, resizes and clicks,
    whether they return or raise, the loaded flow, the options, the
    page's selectors and the resize listener are what they were. *)
Theorem session_keeps_setting inputs w : setting (session inputs w) = setting w.
Proof.
  apply (session_stays (same setting));
    [apply same_refl | apply same_trans | try reflexivity ..].
  apply setting_index.
Qed.

(** X7. The keyboard listener is bound by the constructor and by nothing
    else: once it is removed ([stopFlow] removes it, also at the end of
    a tour), no sequence of calls and events binds it again, so every
    later key press is ignored, also in a tour started anew. *)
Theorem keyboard_stays_unbound inputs w :
  keydownBound w = false ->
  keydownBound (session inputs w) = false /\
  forall c, react (KeyDown c) (session inputs w) = session inputs w.
Proof.
  intros H.
  assert (K : keydownBound (session inputs w) = false).
  { revert H. apply (session_stays not_bound);
      [apply not_bound_refl | apply not_bound_trans
      | intros; intro; first [assumption | reflexivity] ..]. }
  split; [exact K|]. intros c. simpl react. now rewrite K.
Qed.




(** X10. [stopFlow] leaves the resize listener bound, and the listener
    does not look whether a tour is under way: on a coherent tour that
    was stopped, [positionSlide] reads [flowData[null].target] and
    raises [TypeError], at every resize, and changes nothing. *)
Theorem resize_after_stop_raises w :
  coherent w = true ->
  let w' := exec stopFlow w in
  resizeBound w' = resizeBound w /\
  positionSlide w' = (Throw (cannot_read "target"), w') /\
  react Resize w' = w'.
Proof.
  intros H. cbv zeta.
  assert (Hi : activeSlideIndex (self (exec stopFlow w)) = None /\
               resizeBound (exec stopFlow w) = resizeBound w).
  { unfold exec. destruct (activeSlideEl (self w)) as [el|] eqn:Ha.
    - destruct (coherent_elim w el H Ha) as [Hc _].
      rewrite (stopFlow_run w el Ha Hc). unfold stopped. proj.
      destruct (attachTargetEl (self w)); split; reflexivity.
    - rewrite (stopFlow_idle w Ha). split; reflexivity. }
  destruct Hi as [Hi Hr].
  assert (P : positionSlide (exec stopFlow w) =
              (Throw (cannot_read "target"), exec stopFlow w)).
  { unfold positionSlide, flowSlide.
    erewrite bind_step by reflexivity. cbv beta.
    unfold currentSlide. rewrite Hi. reflexivity. }
  split; [exact Hr|]. split; [exact P|].
  simpl react. destruct (resizeBound (exec stopFlow w)); [|reflexivity].
  unfold exec at 1. now rewrite P.
Qed.

(** X11. A resize before the tour has rendered a slide: the listener is
    bound by the constructor, and [positionSlide] highlights the target
    of the slide at the current index before it touches the slide
    element. With no slide element yet it then raises [TypeError]; the
    target keeps the highlight class and [attachTargetEl] names it. *)
Theorem resize_without_slide_highlights w d t tEl :
  currentSlide w = Some d ->
  Flow.target d = Some t ->
  truthy_string (Some t) = true ->
  resolve w t = Some tEl ->
  slideEl (self w) = None ->
  exists name w',
    positionSlide w = (Throw (cannot_read name), w') /\
    attachTargetEl (self w') = Some tEl /\
    highlighted w' tEl = true /\
    tourState w' = tourState w /\
    trace w' = trace w.
Proof.
  intros Hd Ht Htr Hres Hs.
  destruct (resolve_live _ _ _ Hres) as [te Hte].
  assert (E : positionSlide w =
              (Throw (cannot_read (if Qgtb (left (absolute (window w) te) + 360)%Q
                                           (innerWidth (window w))
                                   then "classList" else "style")),
               with_elements (alter (classList_add "orient-target-el") tEl)
                 (with_self (set_attachTargetEl (Some tEl)) w))).
  { unfold positionSlide, flowSlide.
    erewrite bind_step by (unfold gets; rewrite Hd; reflexivity).
    cbv beta. unfold prop. rewrite Ht.
    rewrite bind_step with (a := Some t) (w1 := w) by reflexivity.
    rewrite Htr, (truthy_or_string t Htr). change (negb true) with false. cbv iota.
    erewrite bind_step by (apply positionSlide_lookup; eapply resolve_well_formed; exact Hres).
    rewrite Hres.
    erewrite bind_step by reflexivity. cbv beta.
    erewrite bind_step by reflexivity. cbv beta.
    proj. rewrite Hs.
    erewrite bind_step by reflexivity. cbv beta.
    erewrite bind_step.
    2:{ apply getElAbsolutePosition_run. proj.
        rewrite list_lookup_alter_eq, Hte. reflexivity. }
    erewrite bind_step by reflexivity. cbv beta. proj.
    replace (absolute (window w) (classList_add "orient-target-el" te))
      with (absolute (window w) te) by reflexivity.
    unfold update_slot.
    destruct (Qgtb _ _); reflexivity. }
  eexists _, _. split; [exact E|].
  split; [reflexivity|]. split; [|split; reflexivity].
  unfold highlighted. proj. rewrite list_lookup_alter_eq, Hte.
  cbn [fmap option_fmap option_map classList_add className set_className].
  now apply ClassListFacts.contains_add.
Qed.

(** X12. Highlighting a target and clearing it again gives the target
    its classes back and takes its inline style away: after
    [positionSlide] on a resolved target and [removeAttachedTargetStyles],
    the target has the class tokens it had before, and no inline style
    at all, whatever style the page had given it. *)
Theorem target_restored_without_style w d t tEl te s :
  currentSlide w = Some d ->
  Flow.target d = Some t ->
  truthy_string (Some t) = true ->
  resolve w t = Some tEl ->
  elements w !! tEl = Some te ->
  slideEl (self w) = Some s ->
  s <> tEl ->
  ClassList.contains "orient-target-el" (className te) = false ->
  exists w' te',
    (positionSlide ;; removeAttachedTargetStyles) w = (Ret tt, w') /\
    elements w' !! tEl = Some te' /\
    ClassList.tokens (className te') = ClassList.tokens (className te) /\
    style te' = ∅ /\
    box te' = box te.
Proof.
  intros Hd Ht Htr Hres Hte Hs Hne Hc.
  pose proof (positionSlide_resolved w d t tEl te s Hd Ht Htr Hres Hte Hs) as P.
  cbv zeta in P.
  erewrite bind_step by exact P.
  rewrite removeAttachedTargetStyles_run.
  set (te' := classList_remove "orient-target-el"
                (remove_style (classList_add "orient-target-el" te))).
  eexists _, te'. split; [reflexivity|]. split.
  - destruct (autoScroll (self w)), (Qgtb _ _); proj;
      rewrite !list_lookup_alter_eq;
      rewrite ?list_lookup_alter_ne by exact Hne;
      rewrite list_lookup_alter_eq, Hte; reflexivity.
  - split; [|split; reflexivity].
    subst te'. cbn [classList_remove remove_style classList_add className set_className
                    set_style].
    now apply tokens_remove_add.
Qed.


(** X13. The buttons of a slide follow its position in the flow:
    [buildSlide]'s button row always has the exit button, bound to
    [stopFlow]; then the previous button, bound to [prevSlide], exactly
    when the index is above 0; then the next button, bound to
    [nextSlide], exactly when the index is below the last one. *)
Theorem buttons_follow_position w :
  let i := to_number (activeSlideIndex (self w)) in
  let n := Z.of_nat (length (flowData (self w))) in
  exists b w',
    buildButtons w = (Ret b, w') /\
    child_handlers w' b =
      [H_stopFlow]
      ++ (if Z.gtb i 0 then [H_prevSlide] else [])
      ++ (if Z.ltb i (n - 1) then [H_nextSlide] else []).
Proof.
  cbv zeta. rewrite run_W. unfold buildButtons, appendChild.
  destruct (Z.gtb (to_number (activeSlideIndex (self w))) 0) eqn:E1,
    (Z.ltb (to_number (activeSlideIndex (self w)))
           (Z.of_nat (length (flowData (self w))) - 1)) eqn:E2.
  all: do 2 eexists; split;
    [repeat (repeat step; rewrite ?E1, ?E2; simpl when); reflexivity|].
  all: unfold child_handlers; rewrite lookup_new by len; cbn [lookup list_lookup];
    cbn [children append_child set_children]; rewrite children_made;
    cbn [app flat_map]; unfold click_handlers;
    rewrite ?lookup_new by len; cbn [lookup list_lookup];
    rewrite !listeners_made; reflexivity.
Qed.


(** X14. The overlay follows the options: the slide wrapper built last
    by [buildSlide] has the slide element as its last child; with the
    [overlay] option it has one child before it, the overlay, on which a
    click calls [stopFlow] exactly when [clickOverlayClosesTour] is set;
    without the option the slide element is its only child. *)
Theorem overlay_follows_options w s :
  exists el w' we,
    buildWrapper s w = (Ret el, w') /\
    elements w' !! el = Some we /\
    if overlay (self w)
    then exists ov oe,
           children we = [ov; s] /\
           elements w' !! ov = Some oe /\
           className oe = "orient-slide__overlay"%string /\
           click_handlers w' ov =
             (if clickOverlayClosesTour (self w) then [H_stopFlow] else [])
    else children we = [s] /\ child_handlers w' el = click_handlers w' s.
Proof.
  rewrite run_W. unfold buildWrapper, appendChild.
  destruct (overlay (self w)) eqn:E1.
  - do 3 eexists. split;
      [repeat (repeat step; rewrite ?E1; simpl when); reflexivity|].
    split; [rewrite lookup_new by len; reflexivity|].
    do 2 eexists.
    split; [cbn [children append_child set_children]; rewrite children_made; reflexivity|].
    split; [rewrite lookup_new by len; reflexivity|].
    split; [apply className_made; reflexivity|].
    unfold click_handlers. rewrite lookup_new by len. cbn [lookup list_lookup].
    rewrite listeners_made.
    destruct (clickOverlayClosesTour (self w)); reflexivity.
  - do 3 eexists. split;
      [repeat (repeat step; rewrite ?E1; simpl when); reflexivity|].
    split; [rewrite lookup_new by len; reflexivity|].
    split; [cbn [children append_child set_children]; rewrite children_made; reflexivity|].
    unfold child_handlers. rewrite lookup_new by len. cbn [lookup list_lookup].
    cbn [children append_child set_children]. rewrite children_made.
    cbn [app flat_map]. now rewrite app_nil_r.
Qed.

(** X15. The video element of a slide takes its flags from the FlowFile
    and the defaults where the FlowFile has none: muted, loop and
    autoplay default to true, controls to false. [buildSlide]'s media
    block returns, appends a media wrapper as last child of the slide
    element, and the wrapper's only child is a video element with these
    flags, whose [src] is the url if there is one. *)
Theorem video_flags_default w s se m :
  elements w !! s = Some se ->
  Flow.type m = Some "video"%string ->
  exists w' wrapper we video ve se',
    buildMedia s m w = (Ret tt, w') /\
    elements w' !! s = Some se' /\
    children se' = children se ++ [wrapper] /\
    elements w' !! wrapper = Some we /\
    className we = "orient-slide__media"%string /\
    children we = [video] /\
    elements w' !! video = Some ve /\
    tagName ve = "video"%string /\
    muted ve = Some (default true (Flow.muted m)) /\
    loop ve = Some (default true (Flow.loop m)) /\
    controls ve = Some (default false (Flow.controls m)) /\
    autoplay ve = Some (default true (Flow.autoplay m)) /\
    src ve = (if truthy_string (Flow.url m) then Flow.url m else None).
Proof.
  intros Hse Ht.
  assert (Hs : (s < length (elements w))%nat) by (eapply lookup_lt_Some, Hse).
  rewrite run_W. unfold buildMedia, appendChild. rewrite Ht.
  change (String.eqb "video" "video") with true. cbv iota.
  destruct (truthy_string (Flow.url m)) eqn:Eu.
  all: do 6 eexists; split;
    [repeat step; cbn [truthy_ref negb when update_slot]; repeat step; reflexivity|].
  all: split; [rewrite lookup_upd_old by exact Hs; rewrite Hse; reflexivity|].
  all: split; [reflexivity|].
  all: split; [rewrite lookup_upd_new by (reflexivity || exact Hs); reflexivity|].
  all: split; [reflexivity|].
  all: split; [cbn [children append_child set_children]; rewrite children_made;
               reflexivity|].
  all: split; [rewrite lookup_upd_new by (reflexivity || exact Hs); reflexivity|].
  all: repeat (split; [reflexivity|]).
  - cbn [src set_src]. destruct (Flow.url m) as [[|c r]|]; [discriminate | reflexivity | discriminate].
  - reflexivity.
Qed.


(** X16. Custom classes are appended in the order of the FlowFile and
    add to the classes of the slide element: after the loop over
    [extraClasses] the class attribute is the old one followed by each
    entry after a space, in order, and the class tokens of the element
    are those it had together with those of every entry. *)
Theorem extraClasses_appended cls w el e :
  elements w !! el = Some e ->
  exists w' e',
    add_extraClasses el cls w = (Ret tt, w') /\
    elements w' !! el = Some e' /\
    className e' = with_extraClasses (className e) cls /\
    forall c, ClassList.contains c (className e') =
              ClassList.contains c (className e) || existsb (ClassList.contains c) cls.
Proof.
  revert w e. induction cls as [|x r IH]; intros w e He.
  - exists w, e. split; [reflexivity|]. split; [exact He|]. split; [reflexivity|].
    intros c. simpl. now rewrite orb_false_r.
  - simpl add_extraClasses.
    erewrite bind_step by reflexivity.
    destruct (IH (with_elements
                    (alter (fun e => set_className (className e +:+ " " +:+ x) e) el) w)
                 (set_className (className e +:+ " " +:+ x) e))
      as (w' & e' & R & He' & Hcn & Hc).
    { proj. now rewrite list_lookup_alter_eq, He. }
    exists w', e'. split; [exact R|]. split; [exact He'|].
    split; [exact Hcn|].
    intros c. rewrite Hc. cbn [className set_className existsb].
    now rewrite contains_sep, orb_assoc.
Qed.

(** X17. [getElAbsolutePosition] gives the box of the element in the
    document, wherever the page is scrolled to and whichever scroll
    properties the browser has: adding the scroll offsets to the
    viewport rectangle undoes the scroll, with [scrollX]/[scrollY] as
    with the [pageXOffset]/[pageYOffset] fallback, which is also what is
    used when one of the offsets is 0. The world is not changed. *)
Theorem getElAbsolutePosition_document_box w el e :
  elements w !! el = Some e ->
  exists r,
    getElAbsolutePosition el w = (Ret r, w) /\
    (left r == box_x (box e))%Q /\
    (top r == box_y (box e))%Q /\
    (right r == box_x (box e) + box_width (box e))%Q /\
    (bottom r == box_y (box e) + box_height (box e))%Q /\
    width r = box_width (box e) /\
    height r = box_height (box e).
Proof.
  intros He. exists (absolute (window w) e).
  split; [now apply getElAbsolutePosition_run|].
  unfold absolute, client_rect, scrollX, scrollY.
  destruct (hasScrollXY (window w));
    cbn [truthy_number default];
    destruct (negb (Qeq_bool (pageXOffset (window w)) 0)
              && negb (Qeq_bool (pageYOffset (window w)) 0));
    cbn [left top right bottom width height fst snd andb];
    repeat split; unfold id; first [reflexivity | ring].
Qed.

(** X18. The callback of [loadFlow] runs after every response, also one
    that is no flow: on a controller that was just constructed, a
    response with another status than 200, or with a body that does not
    parse, is reported on the console, the flow stays empty, and
    [startFlow] as callback raises [TypeError] on the missing first
    slide, with nothing added to the page. *)
Theorem start_after_failed_load options pg response :
  Z.eqb (readyState response) 4 && Z.eqb (status response) 200 = false \/
  responseJSON response = None ->
  exists msg w',
    loadFlow_onLoad startFlow response (new_Orient options pg) =
      (Throw (cannot_read "style"), w') /\
    flowData (self w') = [] /\
    activeSlideIndex (self w') = Some 0 /\
    bodyChildren w' = bodyChildren pg /\
    elements w' = elements pg /\
    trace w' = trace pg ++ [ConsoleError msg].
Proof.
  intros H.
  assert (E : exists msg,
             flowLoaded response (new_Orient options pg) =
             (Ret tt, emit (ConsoleError msg) (new_Orient options pg))).
  { unfold flowLoaded.
    destruct (Z.eqb (readyState response) 4 && Z.eqb (status response) 200) eqn:Hs.
    - destruct H as [H|H]; [discriminate|]. rewrite H. eexists. reflexivity.
    - eexists. reflexivity. }
  destruct E as [msg E]. exists msg.
  unfold loadFlow_onLoad. erewrite bind_step by exact E.
  unfold new_Orient, init.
  destruct (default false (Config.keyEvents options));
    (eexists; split; [reflexivity | repeat split]).
Qed.


(** X19. A target that no longer resolves is forgotten, not cleared:
    when [positionSlide] runs again (on a resize) and the selector of
    the slide finds nothing, the slide is pinned to top 0px, left 0px
    with a diagnostic, [attachTargetEl] becomes null, and the element
    that was highlighted before keeps its class; from then on
    [removeAttachedTargetStyles] has nothing to clear. *)
Theorem lost_target_stays_highlighted w d t s old :
  currentSlide w = Some d ->
  Flow.target d = Some t ->
  truthy_string (Some t) = true ->
  well_formed w t = true ->
  resolve w t = None ->
  slideEl (self w) = Some s ->
  attachTargetEl (self w) = Some old ->
  highlighted w old = true ->
  s <> old ->
  exists w',
    positionSlide w = (Ret tt, w') /\
    attachTargetEl (self w') = None /\
    highlighted w' old = true /\
    removeAttachedTargetStyles w' = (Ret tt, w') /\
    (forall se, elements w !! s = Some se ->
                inline w' s "top" = Some (Px 0) /\ inline w' s "left" = Some (Px 0)) /\
    trace w' = trace w ++ [ConsoleError ("[ORIENT] Could not attach slide to element " +:+ t)].
Proof.
  intros Hd Ht Htr Hwf Hres Hs Hold Hh Hne.
  eexists. split; [eapply positionSlide_unresolved; eassumption|].
  split; [reflexivity|]. split; [|split; [|split]].
  - unfold highlighted in *. proj.
    rewrite !list_lookup_alter_ne by exact Hne. exact Hh.
  - rewrite removeAttachedTargetStyles_run. reflexivity.
  - intros se Hse. unfold inline. proj.
    rewrite !list_lookup_alter_eq, Hse.
    cbn [fmap option_fmap option_map style style_assign set_style].
    split.
    + rewrite lookup_insert_ne by discriminate. apply lookup_insert_eq.
    + apply lookup_insert_eq.
  - reflexivity.
Qed.

(** X20. A response that arrives while a tour is under way replaces the
    flow and nothing else. If the new flow is too short for the index,
    the next [nextSlide] takes the slide off the page and then raises
    [TypeError] on the missing slide's [onEnd], with [activeSlideEl]
    still naming the removed element: from there [stopFlow] raises as
    well. *)
Theorem late_response_wedges_tour w el (k : nat) data :
  activeSlideIndex (self w) = Some (Z.of_nat k) ->
  activeSlideEl (self w) = Some el ->
  is_child el (bodyChildren w) = true ->
  (length data <= k)%nat ->
  let w1 := exec (flowLoaded (mkResponse 4 200 (Some data))) w in
  flowData (self w1) = data /\
  activeSlideIndex (self w1) = Some (Z.of_nat k) /\
  activeSlideEl (self w1) = Some el /\
  exists w2,
    nextSlide w1 = (Throw (cannot_read "onEnd"), w2) /\
    activeSlideEl (self w2) = Some el /\
    bodyChildren w2 = remove_child el (bodyChildren w) /\
    stopFlow w2 = (Throw not_a_child, w2).
Proof.
  intros Hi Ha Hc Hk. cbv zeta.
  change (exec (flowLoaded (mkResponse 4 200 (Some data))) w)
    with (with_self (set_flowData data) w).
  split; [reflexivity|]. split; [exact Hi|]. split; [exact Ha|].
  set (w1 := with_self (set_flowData data) w).
  assert (Hcur : forall w0, self w0 = self (with_bodyChildren (remove_child el) w1) ->
                            currentSlide w0 = None).
  { intros w0 E. unfold currentSlide. rewrite E. subst w1. proj.
    cbn [flowData activeSlideIndex set_flowData]. rewrite Hi, index_nat.
    now apply lookup_ge_None. }
  eexists. split.
  - unfold nextSlide.
    erewrite bind_step by (unfold gets; subst w1; proj; cbn [activeSlideEl set_flowData];
                           rewrite Ha; reflexivity).
    erewrite bind_step by (apply body_removeChild_run; exact Hc).
    erewrite bind_step by apply removeAttachedTargetStyles_run.
    unfold run_onEnd, flowSlide. rewrite !bind_assoc.
    erewrite bind_step by reflexivity. cbv beta.
    rewrite Hcur by (destruct (attachTargetEl _); reflexivity).
    reflexivity.
  - split; [|split].
    + subst w1. proj. cbn [attachTargetEl set_flowData].
      destruct (attachTargetEl (self w)); proj; exact Ha.
    + subst w1. proj. cbn [attachTargetEl set_flowData].
      destruct (attachTargetEl (self w)); reflexivity.
    + apply stopFlow_detached with (el := el).
      * subst w1. proj. cbn [attachTargetEl set_flowData].
        destruct (attachTargetEl (self w)); proj; exact Ha.
      * subst w1. proj. cbn [attachTargetEl set_flowData].
        destruct (attachTargetEl (self w)); proj; apply is_child_remove.
Qed.


(** X21. The [onShow] text of a slide is put on the page and not run by
    the controller: the content block of [buildSlide] returns, appends
    the content wrapper to the slide element and, exactly when [onShow]
    is not empty, after it a [script] element whose HTML is the text as
    it stands. Nothing is handed to [new Function] and nothing is
    logged. *)
Theorem onShow_becomes_script w s se d :
  elements w !! s = Some se ->
  exists el w' se' c,
    buildContent s d w = (Ret el, w') /\
    trace w' = trace w /\
    elements w' !! s = Some se' /\
    if truthy_string (Flow.onShow d)
    then exists sc sce,
           children se' = children se ++ [c; sc] /\
           elements w' !! sc = Some sce /\
           tagName sce = "script"%string /\
           content sce = InnerHTML (or_string (Flow.onShow d) EmptyString) /\
           listeners sce = []
    else children se' = children se ++ [c].
Proof.
  intros Hse.
  assert (Hs : (s < length (elements w))%nat) by (eapply lookup_lt_Some, Hse).
  rewrite run_W.
  unfold buildContent, buildText, buildButtons, buildWrapper, appendChild.
  destruct (Z.gtb (to_number (activeSlideIndex (self w))) 0) eqn:E1,
    (Z.ltb (to_number (activeSlideIndex (self w)))
           (Z.of_nat (length (flowData (self w))) - 1)) eqn:E2,
    (truthy_string (Flow.onShow d)) eqn:E3,
    (overlay (self w)) eqn:E4.
  all: do 4 eexists; split;
    [repeat (repeat step; rewrite ?E1, ?E2, ?E3, ?E4; simpl when); reflexivity|].
  all: split; [reflexivity|].
  all: split; [rewrite lookup_old by (rewrite !length_alter; assumption);
               rewrite !list_lookup_alter_eq, Hse; reflexivity|].
  all: cbn [children append_child set_children]; rewrite <- ?app_assoc; cbn [app].
  all: try reflexivity.
  all: do 2 eexists; split; [reflexivity|].
  all: split; [rewrite lookup_new by len; reflexivity|].
  all: unfold made; cbn [o_type o_className o_text o_html o_events truthy_string
                         default from_option listen fold_left];
    rewrite E3; repeat split.
Qed.



(** *** The statements above in the demo tour *)




(** X3 on the first slide of the demo tour, whose target is the heading. *)
Lemma stopFlow_ends_tour_witness :
  activeSlideEl (self on_first) = Some 9%nat /\
  is_child 9%nat (bodyChildren on_first) = true /\
  exists w',
    stopFlow on_first = (Ret tt, w') /\
    idle w' = true /\
    bodyChildren w' = remove_child 9%nat (bodyChildren on_first) /\
    is_child 9%nat (bodyChildren w') = false /\
    keydownBound w' = false /\
    resizeBound w' = resizeBound on_first /\
    flowData (self w') = flowData (self on_first) /\
    flowURL (self w') = flowURL (self on_first) /\
    trace w' = trace on_first /\
    window w' = window on_first /\
    forall t e, attachTargetEl (self on_first) = Some t ->
                elements on_first !! t = Some e ->
                highlighted w' t = false /\ forall name, inline w' t name = None.
Proof.
  do 2 (split; [reflexivity|]).
  apply (stopFlow_ends_tour on_first 9); reflexivity.
Defined.

(** X4 after the demo tour has run into the slide with unknown media. *)
Lemma detached_slide_blocks_witness :
  let w := exec nextSlide before_audio in
  activeSlideEl (self w) = Some 9%nat /\
  is_child 9%nat (bodyChildren w) = false /\
  1 <= 1 <= Z.of_nat (length (flowData (self w))) /\
  stopFlow w = (Throw not_a_child, w) /\
  nextSlide w = (Throw not_a_child, w) /\
  jumpToSlide 1 w = (Throw not_a_child, w).
Proof.
  cbv zeta.
  assert (H : 1 <= 1 <= Z.of_nat (length (flowData (self (exec nextSlide before_audio)))))
    by (vm_compute; split; discriminate).
  do 2 (split; [reflexivity|]). split; [exact H|].
  apply (detached_slide_blocks (exec nextSlide before_audio) 9 1);
    [reflexivity | reflexivity | exact H].
Defined.


(** X7 on a controller with keyboard control that was stopped: a new
    start and the arrow keys after it. *)
Lemma keyboard_stays_unbound_witness :
  let w := exec stopFlow (exec startFlow
             (exec (flowLoaded (mkResponse 4 200 (Some [Demo.anchored; Demo.plain])))
                (new_Orient keyed (page [Demo.heading] [0%nat] (Demo.win 1200 0) Demo.find)))) in
  keydownBound w = false /\
  keydownBound (session [Start; KeyDown 39] w) = false /\
  forall c, react (KeyDown c) (session [Start; KeyDown 39] w) =
            session [Start; KeyDown 39] w.
Proof.
  cbv zeta. split; [reflexivity|].
  apply (keyboard_stays_unbound [Start; KeyDown 39]). reflexivity.
Defined.



(** X10 on the first slide of the demo tour. *)
Lemma resize_after_stop_raises_witness :
  coherent on_first = true /\
  resizeBound (exec stopFlow on_first) = resizeBound on_first /\
  positionSlide (exec stopFlow on_first) =
    (Throw (cannot_read "target"), exec stopFlow on_first) /\
  react Resize (exec stopFlow on_first) = exec stopFlow on_first.
Proof.
  split; [reflexivity|].
  apply (resize_after_stop_raises on_first). reflexivity.
Defined.

(** X11 on the demo tour, loaded and not started. *)
Lemma resize_without_slide_highlights_witness :
  currentSlide demo = Some Demo.anchored /\
  Flow.target Demo.anchored = Some "#a"%string /\
  truthy_string (Some "#a"%string) = true /\
  resolve demo "#a" = Some 0%nat /\
  slideEl (self demo) = None /\
  exists name w',
    positionSlide demo = (Throw (cannot_read name), w') /\
    attachTargetEl (self w') = Some 0%nat /\
    highlighted w' 0%nat = true /\
    tourState w' = tourState demo /\
    trace w' = trace demo.
Proof.
  do 5 (split; [reflexivity|]).
  apply (resize_without_slide_highlights demo Demo.anchored "#a" 0); reflexivity.
Defined.

(** X12 on the first slide of the demo tour, with the heading given an
    inline colour by the page and not highlighted. *)
Lemma target_restored_without_style_witness :
  let w := with_elements (alter (style_assign "color" (Raw "red")) 0%nat)
             (exec removeAttachedTargetStyles on_first) in
  let te := style_assign "color" (Raw "red") Demo.heading in
  currentSlide w = Some Demo.anchored /\
  Flow.target Demo.anchored = Some "#a"%string /\
  truthy_string (Some "#a"%string) = true /\
  resolve w "#a" = Some 0%nat /\
  elements w !! 0%nat = Some te /\
  style te !! "color" = Some (Raw "red") /\
  slideEl (self w) = Some 1%nat /\
  1%nat <> 0%nat /\
  ClassList.contains "orient-target-el" (className te) = false /\
  exists w' te',
    (positionSlide ;; removeAttachedTargetStyles) w = (Ret tt, w') /\
    elements w' !! 0%nat = Some te' /\
    ClassList.tokens (className te') = ClassList.tokens (className te) /\
    style te' = ∅ /\
    box te' = box te.
Proof.
  cbv zeta.
  do 7 (split; [reflexivity|]). split; [discriminate|]. split; [reflexivity|].
  apply (target_restored_without_style _ Demo.anchored "#a" 0 _ 1);
    [reflexivity | reflexivity | reflexivity | reflexivity | reflexivity | reflexivity
    | discriminate | reflexivity].
Defined.

(** X15 for a video that sets [muted] and nothing else, in the heading
    of the demo page. *)
Lemma video_flags_default_witness :
  elements demo !! 0%nat = Some Demo.heading /\
  Flow.type film = Some "video"%string /\
  exists w' wrapper we video ve se',
    buildMedia 0%nat film demo = (Ret tt, w') /\
    elements w' !! 0%nat = Some se' /\
    children se' = children Demo.heading ++ [wrapper] /\
    elements w' !! wrapper = Some we /\
    className we = "orient-slide__media"%string /\
    children we = [video] /\
    elements w' !! video = Some ve /\
    tagName ve = "video"%string /\
    muted ve = Some false /\
    loop ve = Some true /\
    controls ve = Some false /\
    autoplay ve = Some true /\
    src ve = Some "a.mp4"%string.
Proof.
  do 2 (split; [reflexivity|]).
  apply (video_flags_default demo 0 Demo.heading film); reflexivity.
Defined.

(** X16 for two custom classes on the heading of the demo page. *)
Lemma extraClasses_appended_witness :
  elements demo !! 0%nat = Some Demo.heading /\
  exists w' e',
    add_extraClasses 0%nat ["big"; "red"]%string demo = (Ret tt, w') /\
    elements w' !! 0%nat = Some e' /\
    className e' = "title big red"%string /\
    forall c, ClassList.contains c (className e') =
              ClassList.contains c (className Demo.heading)
              || existsb (ClassList.contains c) ["big"; "red"]%string.
Proof.
  split; [reflexivity|].
  apply (extraClasses_appended ["big"; "red"]%string demo 0 Demo.heading). reflexivity.
Defined.

(** X17 for the heading on a page scrolled sideways. *)
Lemma getElAbsolutePosition_document_box_witness :
  let w := Demo.loaded [Demo.anchored] (Demo.win 1200 50) in
  elements w !! 0%nat = Some Demo.heading /\
  exists r,
    getElAbsolutePosition 0%nat w = (Ret r, w) /\
    (left r == 100)%Q /\ (top r == 50)%Q /\
    (right r == 100 + 80)%Q /\ (bottom r == 50 + 20)%Q /\
    width r = 80%Q /\ height r = 20%Q.
Proof.
  cbv zeta. split; [reflexivity|].
  apply (getElAbsolutePosition_document_box _ 0 Demo.heading). reflexivity.
Defined.

(** X18 for a response with status 404. *)
Lemma start_after_failed_load_witness :
  let pg := page [Demo.heading] [0%nat] (Demo.win 1200 0) Demo.find in
  let response := mkResponse 4 404 None in
  (Z.eqb (readyState response) 4 && Z.eqb (status response) 200 = false \/
   responseJSON response = None) /\
  exists msg w',
    loadFlow_onLoad startFlow response (new_Orient Demo.options pg) =
      (Throw (cannot_read "style"), w') /\
    flowData (self w') = [] /\
    activeSlideIndex (self w') = Some 0 /\
    bodyChildren w' = bodyChildren pg /\
    elements w' = elements pg /\
    trace w' = trace pg ++ [ConsoleError msg].
Proof.
  cbv zeta. split; [left; reflexivity|].
  apply (start_after_failed_load Demo.options _ (mkResponse 4 404 None)).
  left. reflexivity.
Defined.

(** X19 on the first slide of the demo tour, after the heading has lost
    its id. *)
Lemma lost_target_stays_highlighted_witness :
  let w := emptied on_first in
  currentSlide w = Some Demo.anchored /\
  Flow.target Demo.anchored = Some "#a"%string /\
  truthy_string (Some "#a"%string) = true /\
  well_formed w "#a" = true /\
  resolve w "#a" = None /\
  slideEl (self w) = Some 1%nat /\
  attachTargetEl (self w) = Some 0%nat /\
  highlighted w 0%nat = true /\
  1%nat <> 0%nat /\
  exists w',
    positionSlide w = (Ret tt, w') /\
    attachTargetEl (self w') = None /\
    highlighted w' 0%nat = true /\
    removeAttachedTargetStyles w' = (Ret tt, w') /\
    (forall se, elements w !! 1%nat = Some se ->
                inline w' 1%nat "top" = Some (Px 0) /\
                inline w' 1%nat "left" = Some (Px 0)) /\
    trace w' = trace w ++ [ConsoleError ("[ORIENT] Could not attach slide to element " +:+ "#a")].
Proof.
  cbv zeta. do 8 (split; [reflexivity|]). split; [discriminate|].
  apply (lost_target_stays_highlighted (emptied on_first) Demo.anchored "#a" 1 0);
    [reflexivity | reflexivity | reflexivity | reflexivity | reflexivity | reflexivity
    | reflexivity | reflexivity | discriminate].
Defined.

(** X20 on the first slide of the demo tour, for an empty flow. *)
Lemma late_response_wedges_tour_witness :
  let w1 := exec (flowLoaded (mkResponse 4 200 (Some []))) on_first in
  activeSlideIndex (self on_first) = Some (Z.of_nat 0) /\
  activeSlideEl (self on_first) = Some 9%nat /\
  is_child 9%nat (bodyChildren on_first) = true /\
  (length (@nil Flow.Slide) <= 0)%nat /\
  flowData (self w1) = [] /\
  activeSlideIndex (self w1) = Some (Z.of_nat 0) /\
  activeSlideEl (self w1) = Some 9%nat /\
  exists w2,
    nextSlide w1 = (Throw (cannot_read "onEnd"), w2) /\
    activeSlideEl (self w2) = Some 9%nat /\
    bodyChildren w2 = remove_child 9%nat (bodyChildren on_first) /\
    stopFlow w2 = (Throw not_a_child, w2).
Proof.
  cbv zeta. do 3 (split; [reflexivity|]). split; [simpl; lia|].
  apply (late_response_wedges_tour on_first 9 0 []); [reflexivity ..| simpl; lia].
Defined.


(** X21 for a slide with an [onShow] script, built into the heading of
    the demo page. *)
Lemma onShow_becomes_script_witness :
  elements demo !! 0%nat = Some Demo.heading /\
  exists el w' se' c,
    buildContent 0%nat greeting demo = (Ret el, w') /\
    trace w' = trace demo /\
    elements w' !! 0%nat = Some se' /\
    exists sc sce,
      children se' = children Demo.heading ++ [c; sc] /\
      elements w' !! sc = Some sce /\
      tagName sce = "script"%string /\
      content sce = InnerHTML "hello()" /\
      listeners sce = [].
Proof.
  split; [reflexivity|].
  apply (onShow_becomes_script demo 0 Demo.heading greeting). reflexivity.
Defined.

End Behaviour.
